(** * Whisky club reports: the data loader and the derived views

    A shallow embedding of [Data_Loading.py] and of the analytical part of
    [whisky_report_generator.py].

    Modelling conventions.
    - A data frame is the list of its rows, in frame order; a row is a record
      with one field per column.  A cell that pandas would show as NaN is
      [None]; the identifier, attendee, guest flag, score and meeting number
      are taken to be filled in every row of the two sheets.
    - Numeric cells are exact rationals ([Q]); the rounding of binary
      floating point is outside the model.
    - The spreadsheet is an input of the model: [read_excel] is a projection
      of the modelled file content.
    - Chart drawing and page layout are external renderers; the model keeps
      only their effect on the file system. *)

From Stdlib Require Import List Bool ZArith QArith Qabs Qround Ascii String Lia.
From Stdlib Require Import Permutation.
From Stdlib Require Import Sorting.Sorted.
Import ListNotations.

Set Implicit Arguments.

(** ** The pandas operations the program uses *)

Module Frame.

Section Generic.
Variable A : Type.

(** [Series.unique]: distinct values in order of first appearance. *)
Fixpoint unique (eqb : A -> A -> bool) (l : list A) : list A :=
  match l with
  | [] => []
  | x :: l' => x :: filter (fun y => negb (eqb x y)) (unique eqb l')
  end.

(** [isin]. *)
Definition isin (eqb : A -> A -> bool) (x : A) (l : list A) : bool :=
  existsb (eqb x) l.

(** Sorting keeps the frame order of rows with equal keys.  pandas'
    default algorithm promises no order among ties; the theorems below
    never rely on one. *)
Fixpoint insert (leb : A -> A -> bool) (x : A) (l : list A) : list A :=
  match l with
  | [] => [x]
  | y :: l' => if leb x y then x :: y :: l' else y :: insert leb x l'
  end.

Fixpoint sort (leb : A -> A -> bool) (l : list A) : list A :=
  match l with
  | [] => []
  | x :: l' => insert leb x (sort leb l')
  end.

(** [sort_values(col, ascending=False)] on a column without NaN. *)
Definition sort_values_desc (key : A -> Q) (l : list A) : list A :=
  sort (fun a b => Qle_bool (key b) (key a)) l.

Definition sort_values_asc (key : A -> Q) (l : list A) : list A :=
  sort (fun a b => Qle_bool (key a) (key b)) l.

(** [sort_values(col, ascending=False)] on a column that may hold NaN:
    the rows with a value, descending, then the NaN rows in frame order
    ([na_position='last']). *)
Definition has_value (key : A -> option Q) (a : A) : bool :=
  match key a with Some _ => true | None => false end.

Definition key_geb (key : A -> option Q) (a b : A) : bool :=
  match key a, key b with
  | Some x, Some y => Qle_bool y x
  | Some _, None => true
  | None, Some _ => false
  | None, None => true
  end.

Definition sort_values_desc_na (key : A -> option Q) (l : list A) : list A :=
  sort (key_geb key) (filter (has_value key) l)
    ++ filter (fun a => negb (has_value key a)) l.

(** [head(n)], [nlargest(n, col)] and [nsmallest(n, col)] (with the
    default [keep='first']). *)
Definition head (n : nat) (l : list A) : list A := firstn n l.
Definition tail (n : nat) (l : list A) : list A := skipn (List.length l - n) l.

Definition nlargest (n : nat) (key : A -> Q) (l : list A) : list A :=
  head n (sort_values_desc key l).

Definition nsmallest (n : nat) (key : A -> Q) (l : list A) : list A :=
  head n (sort_values_asc key l).
End Generic.

(** Arithmetic mean of a column, [Series.mean]. *)
Definition Qsum (xs : list Q) : Q := fold_right Qplus 0%Q xs.

Definition mean (xs : list Q) : Q :=
  (Qsum xs / inject_Z (Z.of_nat (List.length xs)))%Q.

Definition Qltb (x y : Q) : bool := negb (Qle_bool y x).

(** The result of an operation that may raise. *)
Inductive exn : Type :=
| KeyError (key : string)
| IndexError (msg : string)
| ValueError (msg : string).

Inductive result (T : Type) : Type :=
| Ok (v : T)
| Raise (e : exn).
Arguments Raise {T} e.

(** [pd.DataFrame(records).sort_values(col, ...)]: a frame built from an
    empty list of records has no columns, so selecting the sort column
    raises [KeyError]. *)
Definition frame_sort_values (T : Type) (col : string)
    (sorter : list T -> list T) (records : list T) : result (list T) :=
  match records with
  | [] => Raise (KeyError col)
  | _ :: _ => Ok (sorter records)
  end.

End Frame.

(** ** Data_Loading.py *)

Module Data_Loading.
Import Frame.

(** One row of the sheet ['Scores']. *)
Record ScoreRow : Type := mkScoreRow {
  sc_Whisky_ID : Z;
  sc_Attendee : string;
  sc_Guest : Z;
  sc_Whisky_Score : Q;
  sc_Meeting_Number : Z
}.

(** One row of the sheet ['Whiskies'], restricted to [columns_to_keep]. *)
Record WhiskyRow : Type := mkWhiskyRow {
  wh_Whisky_ID : Z;
  wh_Whisky_Distillery : option string;
  wh_Whisky_Age_Corrected : option Q;
  wh_Whisky_Description : option string;
  wh_Whisky_Region : option string;
  wh_Whisky_ABV : option Q;
  wh_Whisky_Price : option Q;
  wh_Meeting_Number : Z;
  wh_Whisky_Bottling : option string
}.

(** The content of ['Master Data File.xlsx'].  [guest_column] tells whether
    the score sheet has a column ['Guest']. *)
Record Workbook : Type := mkWorkbook {
  guest_column : bool;
  Scores : list ScoreRow;
  Whiskies : list WhiskyRow
}.

(** One row of the joined frame [data]. *)
Record Row : Type := mkRow {
  Whisky_ID : Z;
  Attendee : string;
  Guest : Z;
  Whisky_Score : Q;
  Meeting_Number : Z;
  Whisky_Distillery : option string;
  Whisky_Age_Corrected : option Q;
  Whisky_Description : option string;
  Whisky_Region : option string;
  Whisky_ABV : option Q;
  Whisky_Price : option Q;
  Whisky_OB : option Z;
  Tasting_Position : option Z;
  Age_Missing : option Z
}.

Definition set_Whisky_Score (q : Q) (r : Row) : Row :=
  mkRow (Whisky_ID r) (Attendee r) (Guest r) q (Meeting_Number r)
        (Whisky_Distillery r) (Whisky_Age_Corrected r) (Whisky_Description r)
        (Whisky_Region r) (Whisky_ABV r) (Whisky_Price r) (Whisky_OB r)
        (Tasting_Position r) (Age_Missing r).

Definition set_Age (age : option Q) (missing : option Z) (r : Row) : Row :=
  mkRow (Whisky_ID r) (Attendee r) (Guest r) (Whisky_Score r) (Meeting_Number r)
        (Whisky_Distillery r) age (Whisky_Description r)
        (Whisky_Region r) (Whisky_ABV r) (Whisky_Price r) (Whisky_OB r)
        (Tasting_Position r) missing.

Definition opt_string_eqb (a : option string) (s : string) : bool :=
  match a with Some x => String.eqb x s | None => false end.

(** [whiskies_df['Whisky_OB'] = (whiskies_df['Whisky_Bottling'] == 'OB').astype(int)] *)
Definition whisky_OB (w : WhiskyRow) : Z :=
  if opt_string_eqb (wh_Whisky_Bottling w) "OB" then 1%Z else 0%Z.

(** [groupby('Meeting_Number')['Whisky_ID'].rank(method='first')]: the rank
    of [w] among the rows of its meeting, by identifier, equal identifiers in
    sheet order; [earlier] and [later] are the rows before and after [w]. *)
Definition tasting_position (earlier : list WhiskyRow) (w : WhiskyRow)
    (later : list WhiskyRow) : Z :=
  let same w' := Z.eqb (wh_Meeting_Number w') (wh_Meeting_Number w) in
  let before := filter (fun w' => same w' && Z.leb (wh_Whisky_ID w') (wh_Whisky_ID w)) earlier in
  let after := filter (fun w' => same w' && Z.ltb (wh_Whisky_ID w') (wh_Whisky_ID w)) later in
  (1 + Z.of_nat (List.length before) + Z.of_nat (List.length after))%Z.

(** A row of [whiskies_df] once ['Whisky_Bottling'] and ['Meeting_Number']
    are dropped. *)
Record Whisky : Type := mkWhisky {
  w_row : WhiskyRow;
  w_Whisky_OB : Z;
  w_Tasting_Position : Z
}.

Fixpoint prepare_whiskies (earlier later : list WhiskyRow) : list Whisky :=
  match later with
  | [] => []
  | w :: later' =>
      mkWhisky w (whisky_OB w) (tasting_position earlier w later')
        :: prepare_whiskies (earlier ++ [w]) later'
  end.

(** [pd.merge(scores_df, whiskies_df, on='Whisky_ID', how='left')] *)
Definition joined (s : ScoreRow) (w : Whisky) : Row :=
  mkRow (sc_Whisky_ID s) (sc_Attendee s) (sc_Guest s) (sc_Whisky_Score s)
        (sc_Meeting_Number s)
        (wh_Whisky_Distillery (w_row w)) (wh_Whisky_Age_Corrected (w_row w))
        (wh_Whisky_Description (w_row w)) (wh_Whisky_Region (w_row w))
        (wh_Whisky_ABV (w_row w)) (wh_Whisky_Price (w_row w))
        (Some (w_Whisky_OB w)) (Some (w_Tasting_Position w)) None.

Definition unmatched (s : ScoreRow) : Row :=
  mkRow (sc_Whisky_ID s) (sc_Attendee s) (sc_Guest s) (sc_Whisky_Score s)
        (sc_Meeting_Number s) None None None None None None None None None.

Definition matches (s : ScoreRow) (whiskies_df : list Whisky) : list Whisky :=
  filter (fun w => Z.eqb (wh_Whisky_ID (w_row w)) (sc_Whisky_ID s)) whiskies_df.

Definition merge_row (whiskies_df : list Whisky) (s : ScoreRow) : list Row :=
  match matches s whiskies_df with
  | [] => [unmatched s]
  | ws => map (joined s) ws
  end.

Definition merge_left (scores_df : list ScoreRow) (whiskies_df : list Whisky)
    : list Row :=
  flat_map (merge_row whiskies_df) scores_df.

(** The keyword arguments of [load_whisky_data]. *)
Record Options : Type := mkOptions {
  remove_guests : bool;
  remove_USwhiskies : bool;
  remove_thresh : Q;
  pointscale : bool;
  fill_missing_age : bool;
  min_whiskies_per_region : Z
}.

Definition default_options : Options :=
  mkOptions true false 0 false true 0.

(** [data[data['Guest'] != 1]] *)
Definition drop_guests (data : list Row) : list Row :=
  filter (fun r => negb (Z.eqb (Guest r) 1)) data.

(** [data[data['Whisky_Region'] != 'USA']] *)
Definition drop_USA (data : list Row) : list Row :=
  filter (fun r => negb (opt_string_eqb (Whisky_Region r) "USA")) data.

(** [data.groupby('Whisky_ID')['Whisky_Score'].mean()] *)
Definition scores_of (whisky_id : Z) (data : list Row) : list Q :=
  map Whisky_Score (filter (fun r => Z.eqb (Whisky_ID r) whisky_id) data).

Definition avg_scores (data : list Row) : list (Z * Q) :=
  map (fun k => (k, mean (scores_of k data)))
      (sort Z.leb (unique Z.eqb (map Whisky_ID data))).

Definition low_score_whiskies (thresh : Q) (data : list Row) : list Z :=
  map fst (filter (fun kv => Qltb (snd kv) thresh) (avg_scores data)).

Definition drop_outliers (thresh : Q) (data : list Row) : list Row :=
  let low := low_score_whiskies thresh data in
  let data1 := filter (fun r => negb (isin Z.eqb (Whisky_ID r) low)) data in
  filter (fun r => Qle_bool thresh (Whisky_Score r)) data1.

(** [data['Whisky_Score'] = (data['Whisky_Score'] - remove_thresh) * 10] *)
Definition rescale (thresh : Q) (r : Row) : Row :=
  set_Whisky_Score ((Whisky_Score r - thresh) * 10)%Q r.

(** [data.groupby('Whisky_Region')['Whisky_ID'].nunique()]; rows without a
    region belong to no group. *)
Definition regions_of (data : list Row) : list string :=
  sort String.leb
       (unique String.eqb
          (flat_map (fun r => match Whisky_Region r with
                              | Some g => [g] | None => [] end) data)).

Definition region_counts (data : list Row) : list (string * Z) :=
  map (fun g =>
         (g, Z.of_nat (List.length (unique Z.eqb
                (map Whisky_ID
                     (filter (fun r => opt_string_eqb (Whisky_Region r) g) data))))))
      (regions_of data).

Definition valid_regions (min : Z) (data : list Row) : list string :=
  map fst (filter (fun kv => Z.leb min (snd kv)) (region_counts data)).

Definition keep_valid_regions (min : Z) (data : list Row) : list Row :=
  let valid := valid_regions min data in
  filter (fun r => match Whisky_Region r with
                   | Some g => isin String.eqb g valid
                   | None => false
                   end) data.

(** [isna().astype(int)] and [fillna(-1)] on ['Whisky_Age_Corrected']. *)
Definition isna (T : Type) (c : option T) : bool :=
  match c with None => true | Some _ => false end.

Definition fill_age (r : Row) : Row :=
  set_Age (Some (match Whisky_Age_Corrected r with
                 | Some a => a
                 | None => (-1)%Q
                 end))
          (Some (if isna (Whisky_Age_Corrected r) then 1%Z else 0%Z))
          r.

(** The frame right after the join. *)
Definition joined_frame (wb : Workbook) : list Row :=
  merge_left (Scores wb) (prepare_whiskies [] (Whiskies wb)).

(** The chain of optional transforms, in the order of the source. *)
Definition step (enabled : bool) (f : list Row -> list Row) (data : list Row)
    : list Row :=
  if enabled then f data else data.

Definition clean (o : Options) (has_guest : bool) (data : list Row) : list Row :=
  let data := step (remove_guests o && has_guest) drop_guests data in
  let data := step (remove_USwhiskies o) drop_USA data in
  let data := step (Qltb 0 (remove_thresh o)) (drop_outliers (remove_thresh o)) data in
  let data := step (pointscale o) (map (rescale (remove_thresh o))) data in
  let data := step (Z.ltb 0 (min_whiskies_per_region o))
                   (keep_valid_regions (min_whiskies_per_region o)) data in
  step (fill_missing_age o) (map fill_age) data.

(** [load_whisky_data]: [file] is [None] when ['Master Data File.xlsx'] does
    not exist; the function then reports it and returns [None].  A workbook
    of the model is already typed, so the failures of reading and of type
    coercion, which the source also turns into [None], do not arise. *)
Definition load_whisky_data (o : Options) (file : option Workbook)
    : option (list Row) :=
  match file with
  | None => None
  | Some wb => Some (clean o (guest_column wb) (joined_frame wb))
  end.

End Data_Loading.

(** ** whisky_report_generator.py *)

Module whisky_report_generator.
Import Frame Data_Loading.

Definition bind (T U : Type) (m : result T) (k : T -> result U) : result U :=
  match m with
  | Ok v => k v
  | Raise e => Raise e
  end.

(** A [for] loop whose body appends rows to a list and may raise. *)
Fixpoint for_each (T U : Type) (body : T -> result (list U)) (l : list T)
    : result (list U) :=
  match l with
  | [] => Ok []
  | x :: l' =>
      bind (body x) (fun rows =>
      bind (for_each body l') (fun rest => Ok (rows ++ rest)))
  end.

(** [data[data['Attendee'] == attendee_name][['Whisky_ID', 'Whisky_Score']]] *)
Definition scores_of_attendee (data : list Row) (attendee_name : string)
    : list (Z * Q) :=
  map (fun r => (Whisky_ID r, Whisky_Score r))
      (filter (fun r => String.eqb (Attendee r) attendee_name) data).

(** [data[data['Attendee'] != attendee_name]['Attendee'].unique()] *)
Definition other_attendees (data : list Row) (attendee_name : string)
    : list string :=
  unique String.eqb
    (map Attendee
         (filter (fun r => negb (String.eqb (Attendee r) attendee_name)) data)).

(** [pd.merge(target_scores, other_scores, on='Whisky_ID', suffixes=...)]:
    the inner join; a row holds the identifier, the target's score and the
    other attendee's score. *)
Definition common_whiskies (target_scores other_scores : list (Z * Q))
    : list (Z * Q * Q) :=
  flat_map (fun t =>
              map (fun o => (fst t, snd t, snd o))
                  (filter (fun o => Z.eqb (fst o) (fst t)) other_scores))
           target_scores.

Definition Whisky_Score_target (c : Z * Q * Q) : Q := snd (fst c).
Definition Whisky_Score_other (c : Z * Q * Q) : Q := snd c.

Record CorrelationRow : Type := mkCorrelationRow {
  c_Attendee : string;
  Correlation : option Q;
  Common_Whiskies : Z
}.

Record DifferenceRow : Type := mkDifferenceRow {
  d_Whisky_ID : Z;
  Description : option string;
  Distillery : option string;
  Age : option Q;
  Other_Attendee : string;
  Target_Score : Q;
  Other_Score : Q;
  Absolute_Difference : Q
}.

(** The inner loop of [find_largest_score_differences]: [max_diff] and
    [max_diff_row] after the rows of [other_scores] have been visited. *)
Definition visit (target_score : Q) (acc : Q * option Row) (other_row : Row)
    : Q * option Row :=
  let diff := Qabs (target_score - Whisky_Score other_row) in
  if Qltb (fst acc) diff then (diff, Some other_row) else acc.

Definition largest_difference (target_score : Q) (other_scores : list Row)
    : Q * option Row :=
  fold_left (visit target_score) other_scores (0%Q, None).

(** [target_scores[target_scores['Whisky_ID'] == whisky_id]['Whisky_Score'].iloc[0]] *)
Definition first_score (target_scores : list (Z * Q)) (whisky_id : Z)
    : result Q :=
  match filter (fun t => Z.eqb (fst t) whisky_id) target_scores with
  | t :: _ => Ok (snd t)
  | [] => Raise (IndexError "single positional indexer is out-of-bounds")
  end.

(** [data[(data['Attendee'] != attendee_name) & (data['Whisky_ID'] == whisky_id)]] *)
Definition others_on (data : list Row) (attendee_name : string) (whisky_id : Z)
    : list Row :=
  filter (fun r => negb (String.eqb (Attendee r) attendee_name)
                   && Z.eqb (Whisky_ID r) whisky_id) data.

Definition difference_rows (data : list Row) (attendee_name : string)
    (target_scores : list (Z * Q)) (whisky_id : Z) : result (list DifferenceRow) :=
  bind (first_score target_scores whisky_id) (fun target_score =>
  let other_scores := others_on data attendee_name whisky_id in
  match largest_difference target_score other_scores with
  | (max_diff, Some max_diff_row) =>
      if Qltb 0 max_diff then
        Ok [mkDifferenceRow whisky_id
              (Whisky_Description max_diff_row)
              (Whisky_Distillery max_diff_row)
              (Whisky_Age_Corrected max_diff_row)
              (Attendee max_diff_row)
              target_score
              (Whisky_Score max_diff_row)
              max_diff]
      else Ok []
  | (_, None) => Ok []
  end).

Definition find_largest_score_differences (data : list Row)
    (attendee_name : string) : result (list DifferenceRow) :=
  let target_scores := scores_of_attendee data attendee_name in
  bind (for_each (difference_rows data attendee_name target_scores)
                 (map fst target_scores))
       (frame_sort_values "Absolute_Difference"
          (sort_values_desc Absolute_Difference)).

Section Correlations.

(** [Series.corr] of pandas, the Pearson correlation of two columns of
    equal length; [None] is NaN.  It is a library function and stays a
    parameter of the model. *)
Variable corr : list Q -> list Q -> option Q.

Definition correlation_row (target_scores : list (Z * Q)) (data : list Row)
    (min_common_whiskies : Z) (other_attendee : string)
    : list CorrelationRow :=
  let other_scores := scores_of_attendee data other_attendee in
  let common := common_whiskies target_scores other_scores in
  if Z.leb min_common_whiskies (Z.of_nat (List.length common)) then
    [mkCorrelationRow other_attendee
       (corr (map Whisky_Score_target common) (map Whisky_Score_other common))
       (Z.of_nat (List.length common))]
  else [].

Definition calculate_attendee_correlations (data : list Row)
    (attendee_name : string) (min_common_whiskies : Z)
    : result (list CorrelationRow) :=
  let target_scores := scores_of_attendee data attendee_name in
  let correlations :=
    flat_map (correlation_row target_scores data min_common_whiskies)
             (other_attendees data attendee_name) in
  frame_sort_values "Correlation" (sort_values_desc_na Correlation)
                    correlations.

End Correlations.

(** *** The aggregates of [generate_personal_whisky_report] *)

(** A row of [top_distilleries] or of [top_regions]. *)
Record Aggregate : Type := mkAggregate {
  group_name : string;
  avg_score : Q;
  whisky_count : Z
}.

Definition groups (key : Row -> option string) (rows : list Row) : list string :=
  sort String.leb
       (unique String.eqb
          (flat_map (fun r => match key r with
                              | Some g => [g] | None => [] end) rows)).

(** [groupby(key).agg({'Whisky_Score': ['mean', 'count']}).reset_index()] *)
Definition aggregate (key : Row -> option string) (rows : list Row)
    : list Aggregate :=
  map (fun g =>
         let members := filter (fun r => opt_string_eqb (key r) g) rows in
         mkAggregate g (mean (map Whisky_Score members))
                     (Z.of_nat (List.length members)))
      (groups key rows).

Definition top_distilleries (current_focus : list Row) : list Aggregate :=
  aggregate Whisky_Distillery current_focus.

Definition filtered_distilleries (current_focus : list Row) : list Aggregate :=
  filter (fun a => Z.leb 5 (whisky_count a)) (top_distilleries current_focus).

Definition top_5 (current_focus : list Row) : list Aggregate :=
  nlargest 5 avg_score (filtered_distilleries current_focus).

Definition bottom_5 (current_focus : list Row) : list Aggregate :=
  nsmallest 5 avg_score (filtered_distilleries current_focus).

(** [top_regions.sort_values('whisky_count', ascending=False).head(10)] *)
Definition top_regions (current_focus : list Row) : list Aggregate :=
  head 10 (sort (fun a b => Z.leb (whisky_count b) (whisky_count a))
                (aggregate Whisky_Region current_focus)).

(** [top_regions[top_regions['whisky_count'] > min_distillery_count]] *)
Definition filtered_regions (current_focus : list Row)
    (min_distillery_count : Z) : list Aggregate :=
  filter (fun a => Z.ltb min_distillery_count (whisky_count a))
         (top_regions current_focus).

Definition top_3_regions (current_focus : list Row)
    (min_distillery_count : Z) : list Aggregate :=
  nlargest 3 avg_score (filtered_regions current_focus min_distillery_count).

Definition bottom_3_regions (current_focus : list Row)
    (min_distillery_count : Z) : list Aggregate :=
  nsmallest 3 avg_score (filtered_regions current_focus min_distillery_count).

(** The single row of [attendee_stats]. *)
Record Stats : Type := mkStats {
  meetings_attended : Z;
  whiskies_scored : Z;
  stats_avg_score : Q;
  total_price : Q
}.

Definition attendee_stats (current_focus : list Row) : Stats :=
  mkStats
    (Z.of_nat (List.length (unique Z.eqb (map Meeting_Number current_focus))))
    (Z.of_nat (List.length current_focus))
    (mean (map Whisky_Score current_focus))
    (Qsum (flat_map (fun r => match Whisky_Price r with
                              | Some p => [p] | None => [] end) current_focus)).

(** What the report shows, section by section; fonts, cell widths and page
    breaks are left to the renderer. *)
Record Document : Type := mkDocument {
  doc_attendee : string;
  doc_stats : Stats;
  doc_top_distilleries : list Aggregate;
  doc_bottom_distilleries : list Aggregate;
  doc_top_regions : list Aggregate;
  doc_bottom_regions : list Aggregate;
  doc_similar : list CorrelationRow;
  doc_different : list CorrelationRow;
  doc_differences : list DifferenceRow;
  doc_history : list Row
}.

(** *** The file system and the console *)

(** What a file of the working directory holds. *)
Inductive Content : Type :=
| Image
| Pdf (d : Document)
| Other.

Record World : Type := mkWorld {
  master_file : option Workbook;
  files : list (string * Content);
  stdout : list string
}.

(** [os.path.exists] *)
Definition exists_file (f : string) (w : World) : bool :=
  isin String.eqb f (map fst (files w)).

(** [os.remove] *)
Definition remove_file (f : string) (w : World) : World :=
  mkWorld (master_file w)
          (filter (fun g => negb (String.eqb (fst g) f)) (files w))
          (stdout w).

(** [plt.savefig] and [pdf.output] create the file or replace it. *)
Definition write_file (f : string) (c : Content) (w : World) : World :=
  mkWorld (master_file w)
          ((f, c) :: files (remove_file f w))
          (stdout w).

Definition print (line : string) (w : World) : World :=
  mkWorld (master_file w) (files w) (stdout w ++ [line]).

(** [str(e)] *)
Definition str_exn (e : exn) : string :=
  match e with
  | KeyError key => "'" ++ key ++ "'"
  | IndexError msg => msg
  | ValueError msg => msg
  end.

(** Computations that read and change the world and may raise. *)
Definition M (T : Type) : Type := World -> result T * World.

Definition ret (T : Type) (v : T) : M T := fun w => (Ok v, w).

Definition raise (T : Type) (e : exn) : M T := fun w => (Raise e, w).
Arguments raise {T} e.

Definition mbind (T U : Type) (m : M T) (k : T -> M U) : M U :=
  fun w => match m w with
           | (Ok v, w') => k v w'
           | (Raise e, w') => (Raise e, w')
           end.

Definition lift (T : Type) (r : result T) : M T := fun w => (r, w).

Definition effect (f : World -> World) : M unit := fun w => (Ok tt, f w).

Notation "x <- m ;; k" := (mbind m (fun x => k))
  (at level 61, m at next level, right associativity).
Notation "m ;;; k" := (mbind m (fun _ => k))
  (at level 61, right associativity).

(** The call of [Data_Loading.load_whisky_data], with the message the
    loader prints when the workbook is missing. *)
Definition call_load_whisky_data (o : Options) : M (option (list Row)) :=
  fun w =>
    match load_whisky_data o (master_file w) with
    | Some data => (Ok (Some data), w)
    | None => (Ok None, print "Error: File 'Master Data File.xlsx' not found." w)
    end.

Definition trend_chart : string := "trend_chart.png".
Definition distillery_chart : string := "distillery_chart.png".
Definition region_chart : string := "region_chart.png".

(** [attendee_name.replace(' ', '_')] *)
Fixpoint replace_space (s : string) : string :=
  match s with
  | EmptyString => EmptyString
  | String c s' =>
      String (if Ascii.eqb c " "%char then "_"%char else c) (replace_space s')
  end.

(** [round(0)] on the age (halves to the even neighbour) and the ABV as a
    percentage; the text column ['Age_Display'] is left to the renderer. *)
Definition round0 (q : Q) : Q :=
  let f := Qfloor q in
  let d := (q - inject_Z f)%Q in
  if Qltb d (1 # 2) then inject_Z f
  else if Qltb (1 # 2) d then inject_Z (f + 1)
  else if Z.even f then inject_Z f else inject_Z (f + 1).

Definition prepare_row (r : Row) : Row :=
  mkRow (Whisky_ID r) (Attendee r) (Guest r) (Whisky_Score r) (Meeting_Number r)
        (Whisky_Distillery r) (option_map round0 (Whisky_Age_Corrected r))
        (Whisky_Description r) (Whisky_Region r)
        (option_map (fun a => (a * 100)%Q) (Whisky_ABV r))
        (Whisky_Price r) (Whisky_OB r) (Tasting_Position r) (Age_Missing r).

Fixpoint remove_charts (charts : list string) : M unit :=
  match charts with
  | [] => ret tt
  | chart_file :: rest =>
      mbind (fun w => if exists_file chart_file w
                      then (Ok tt, remove_file chart_file w)
                      else (Ok tt, w))
            (fun _ => remove_charts rest)
  end.

Section Orchestrator.

Variable corr : list Q -> list Q -> option Q.

(** [str.lower] of Python.  It lowers every cased character of a text, the
    letters outside ASCII too, and can change the length of the text.  It
    is a library function and stays a parameter of the model. *)
Variable lower : string -> string.

(** [f"whisky_report_{attendee_name.replace(' ', '_').lower()}.pdf"] *)
Definition output_filename (attendee_name : string) : string :=
  "whisky_report_" ++ lower (replace_space attendee_name) ++ ".pdf".

(** The body of the [try] block. *)
Definition report_body (attendee_name : string) (min_distillery_count : Z)
    : M string :=
  loaded <- call_load_whisky_data (mkOptions true false 0 false true 0) ;;
  data <- match loaded with
          | None => raise (ValueError "Failed to load whisky data")
          | Some data => ret data
          end ;;
  let focus := filter (fun r => String.eqb (Attendee r) attendee_name) data in
  match focus with
  | [] => raise (ValueError ("No data found for attendee: " ++ attendee_name))
  | _ :: _ =>
      let stats := attendee_stats focus in
      let current_focus := map prepare_row focus in
      effect (write_file trend_chart Image) ;;;
      effect (write_file distillery_chart Image) ;;;
      effect (write_file region_chart Image) ;;;
      correlations_df <-
        lift (calculate_attendee_correlations corr data attendee_name 50) ;;
      differences_df <-
        lift (find_largest_score_differences data attendee_name) ;;
      let document :=
        mkDocument attendee_name stats
          (top_5 current_focus) (bottom_5 current_focus)
          (top_3_regions current_focus min_distillery_count)
          (bottom_3_regions current_focus min_distillery_count)
          (head 3 correlations_df) (tail 3 correlations_df)
          (head 5 differences_df)
          (sort_values_desc Whisky_Score current_focus) in
      effect (write_file (output_filename attendee_name) (Pdf document)) ;;;
      remove_charts [distillery_chart; region_chart; trend_chart] ;;;
      ret (output_filename attendee_name)
  end.

(** [try: ... except Exception as e: print(...); return None] *)
Definition generate_personal_whisky_report (attendee_name : string)
    (min_distillery_count : Z) (w : World) : option string * World :=
  match report_body attendee_name min_distillery_count w with
  | (Ok filename, w') => (Some filename, w')
  | (Raise e, w') =>
      (None, print ("Error generating report: " ++ str_exn e) w')
  end.

End Orchestrator.


(** *** The trend series *)

(** [current_focus.sort_values('Whisky_ID')] *)
Definition scores_over_time (current_focus : list Row) : list Row :=
  sort (fun a b => Z.leb (Whisky_ID a) (Whisky_ID b)) current_focus.

(** The values a window of [rolling(window)] holds at position [i]: the
    last [window] values up to and including position [i]. *)
Definition window_at (window : nat) (xs : list Q) (i : nat) : list Q :=
  tail window (firstn (S i) xs).

(** [rolling(window, min_periods).mean()]; NaN where the window holds
    fewer than [min_periods] values. *)
Definition rolling_mean (window min_periods : nat) (xs : list Q)
    : list (option Q) :=
  map (fun i =>
         let values := window_at window xs i in
         if Nat.leb min_periods (List.length values)
         then Some (mean values) else None)
      (seq 0 (List.length xs)).

(** [scores_over_time['Whisky_Score'].rolling(window=10, min_periods=1).mean()] *)
Definition moving_avg (current_focus : list Row) : list (option Q) :=
  rolling_mean 10 1 (map Whisky_Score (scores_over_time current_focus)).

End whisky_report_generator.

(** ** Sample data *)

Module Examples.
Import Frame Data_Loading.
Local Open Scope string_scope.

(** A small workbook: two whiskies of one meeting, three attendees. *)
Definition talisker : WhiskyRow :=
  mkWhiskyRow 1 (Some "Talisker") (Some (10 # 1)) (Some "Talisker 10")
              (Some "Islands") (Some (458 # 1000)) (Some (60 # 1)) 1 (Some "OB").

Definition caol_ila : WhiskyRow :=
  mkWhiskyRow 2 (Some "Caol Ila") None (Some "Caol Ila cask")
              (Some "Islay") (Some (55 # 100)) (Some (90 # 1)) 1 (Some "IB").

Definition club_scores : list ScoreRow :=
  [ mkScoreRow 1 "Ann" 0 (8 # 1) 1;
    mkScoreRow 1 "Bob" 0 (13 # 2) 1;
    mkScoreRow 2 "Ann" 0 (7 # 1) 1;
    mkScoreRow 2 "Bob" 0 (9 # 1) 1;
    mkScoreRow 3 "Cid" 1 (6 # 1) 2 ].

Definition club : Workbook := mkWorkbook true club_scores [talisker; caol_ila].

(** The table a default load returns for [club]. *)
Definition club_data : list Row :=
  clean default_options (guest_column club) (joined_frame club).

(** A whisky tasted again at a later meeting: Ann has two score rows for
    whisky 1. *)
Definition retasting : Workbook :=
  mkWorkbook true
    [ mkScoreRow 1 "Ann" 0 (8 # 1) 1;
      mkScoreRow 1 "Bob" 0 (6 # 1) 1;
      mkScoreRow 1 "Ann" 0 (7 # 1) 2 ]
    [talisker].

(** One row of a loaded table, and one person's rows: five whiskies of
    Ardbeg (Islay) and six of Glenfarclas (Speyside). *)
Definition scored_by (attendee : string) (id : Z) (distillery region : string)
    (score : Q) : Row :=
  mkRow id attendee 0 score 1 (Some distillery) (Some (12 # 1)) None
        (Some region) None None (Some 1%Z) (Some 1%Z) (Some 0%Z).

Definition scored : Z -> string -> string -> Q -> Row := scored_by "Ann".

Definition ann_focus : list Row :=
  [ scored 1 "Ardbeg" "Islay" (8 # 1);
    scored 2 "Ardbeg" "Islay" (9 # 1);
    scored 3 "Ardbeg" "Islay" (8 # 1);
    scored 4 "Ardbeg" "Islay" (9 # 1);
    scored 5 "Ardbeg" "Islay" (8 # 1);
    scored 6 "Glenfarclas" "Speyside" (7 # 1);
    scored 7 "Glenfarclas" "Speyside" (7 # 1);
    scored 8 "Glenfarclas" "Speyside" (8 # 1);
    scored 9 "Glenfarclas" "Speyside" (7 # 1);
    scored 10 "Glenfarclas" "Speyside" (7 # 1);
    scored 11 "Glenfarclas" "Speyside" (6 # 1) ].


(** Fifty whiskies, each scored 8 by Ann and 7 by Bob; no metadata. *)
Definition busy_scores : list ScoreRow :=
  flat_map (fun i => [ mkScoreRow (Z.of_nat i) "Ann" 0 (8 # 1) 1;
                       mkScoreRow (Z.of_nat i) "Bob" 0 (7 # 1) 1 ])
           (seq 1 50).

Definition busy_world : whisky_report_generator.World :=
  whisky_report_generator.mkWorld (Some (mkWorkbook true busy_scores []))
                                  [] [].

(** What [str.lower] gives on a text of ASCII characters, which the sample
    names are. *)
Definition lower_ascii (c : Ascii.ascii) : Ascii.ascii :=
  let n := Ascii.nat_of_ascii c in
  if (Nat.leb 65 n && Nat.leb n 90)%bool then Ascii.ascii_of_nat (n + 32) else c.

Fixpoint ascii_lower (s : string) : string :=
  match s with
  | EmptyString => EmptyString
  | String c s' => String (lower_ascii c) (ascii_lower s')
  end.

End Examples.

(** ** The notions the properties are stated with *)

Module Notions.
Import Frame Data_Loading whisky_report_generator.

(** *** On the loaded table *)

(** The score columns of a joined row. *)
Definition score_part (r : Row) : ScoreRow :=
  mkScoreRow (Whisky_ID r) (Attendee r) (Guest r) (Whisky_Score r)
             (Meeting_Number r).

(** The transforms that can drop rows are all switched off. *)
Definition keeps_all_rows (o : Options) : Prop :=
  remove_guests o = false /\ remove_USwhiskies o = false /\
  (remove_thresh o <= 0)%Q /\ (min_whiskies_per_region o <= 0)%Z.

Definition with_pointscale (b : bool) (o : Options) : Options :=
  mkOptions (remove_guests o) (remove_USwhiskies o) (remove_thresh o) b
            (fill_missing_age o) (min_whiskies_per_region o).

Definition with_fill_missing_age (b : bool) (o : Options) : Options :=
  mkOptions (remove_guests o) (remove_USwhiskies o) (remove_thresh o)
            (pointscale o) b (min_whiskies_per_region o).

(** Every row has a score of at least [T], and so has the mean of every
    item over the rows of the table. *)
Definition above_threshold (T : Q) (data : list Row) : Prop :=
  (forall r, In r data -> (T <= Whisky_Score r)%Q) /\
  (forall r, In r data -> (T <= mean (scores_of (Whisky_ID r) data))%Q).

(** The transforms after rescaling neither read nor write the score. *)
Definition finish (o : Options) (data : list Row) : list Row :=
  step (fill_missing_age o) (map fill_age)
       (step (Z.ltb 0 (min_whiskies_per_region o))
             (keep_valid_regions (min_whiskies_per_region o)) data).

(** The transforms before rescaling. *)
Definition filtered (o : Options) (has_guest : bool) (data : list Row)
    : list Row :=
  step (Qltb 0 (remove_thresh o)) (drop_outliers (remove_thresh o))
       (step (remove_USwhiskies o) drop_USA
             (step (remove_guests o && has_guest) drop_guests data)).

(** *** On the derived views *)

(** The absolute difference of a row's score to the target's score. *)
Definition diff_to (target_score : Q) (r : Row) : Q :=
  Qabs (target_score - Whisky_Score r).

(** What [max_diff] and [max_diff_row] hold after the rows of [seen]:
    either nothing was selected and no row differs from the target, or
    the selected row is the first of [seen] that reaches the largest
    difference. *)
Definition selected (target_score : Q) (seen : list Row)
    (acc : Q * option Row) : Prop :=
  match snd acc with
  | None =>
      fst acc = 0%Q /\
      Forall (fun r => (diff_to target_score r <= 0)%Q) seen
  | Some row =>
      fst acc = diff_to target_score row /\ (0 < fst acc)%Q /\
      exists earlier later,
        seen = earlier ++ row :: later /\
        Forall (fun r => (diff_to target_score r
                          < diff_to target_score row)%Q) earlier /\
        Forall (fun r => (diff_to target_score r
                          <= diff_to target_score row)%Q) later
  end.

(** Descending order on a column with NaN: a value is before any smaller
    value, and before NaN. *)
Definition desc_na (x y : option Q) : Prop :=
  match x, y with
  | Some a, Some b => (b <= a)%Q
  | _, None => True
  | None, Some _ => False
  end.

(** The inner join of the target's scores with the scores of [other]. *)
Definition common (data : list Row) (attendee_name other : string)
    : list (Z * Q * Q) :=
  common_whiskies (scores_of_attendee data attendee_name)
                  (scores_of_attendee data other).

(** [p] is another attendee of the table with enough commonly scored
    whiskies. *)
Definition qualifies (data : list Row) (attendee_name : string) (min : Z)
    (p : string) : Prop :=
  p <> attendee_name /\ In p (map Attendee data) /\
  (min <= Z.of_nat (List.length (common data attendee_name p)))%Z.

(** The row of one qualifying attendee. *)
Definition row_of (corr : list Q -> list Q -> option Q) (data : list Row)
    (attendee_name : string) (c : CorrelationRow) : Prop :=
  Common_Whiskies c
  = Z.of_nat (List.length (common data attendee_name (c_Attendee c))) /\
  Correlation c
  = corr (map Whisky_Score_target (common data attendee_name (c_Attendee c)))
         (map Whisky_Score_other (common data attendee_name (c_Attendee c))).

(** [d] reports, for its whisky, the first of the other attendees' rows
    that reaches the largest absolute difference to the target's score,
    and that difference is not zero. *)
Definition largest_on (data : list Row) (attendee_name : string)
    (d : DifferenceRow) : Prop :=
  first_score (scores_of_attendee data attendee_name) (d_Whisky_ID d)
    = Ok (Target_Score d) /\
  (0 < Absolute_Difference d)%Q /\
  exists earlier row later,
    others_on data attendee_name (d_Whisky_ID d) = earlier ++ row :: later /\
    Other_Attendee d = Attendee row /\
    Other_Score d = Whisky_Score row /\
    Absolute_Difference d = Qabs (Target_Score d - Whisky_Score row) /\
    Forall (fun r => (Qabs (Target_Score d - Whisky_Score r)
                      < Absolute_Difference d)%Q) earlier /\
    Forall (fun r => (Qabs (Target_Score d - Whisky_Score r)
                      <= Absolute_Difference d)%Q) later.

(** *** On the transforms of the loader *)

(** What rescaling and the age fill, when enabled, do to one row. *)
Definition row_transform (o : Options) (r : Row) : Row :=
  (if fill_missing_age o then fill_age else fun r0 => r0)
    ((if pointscale o then rescale (remove_thresh o) else fun r0 => r0) r).

(** The number of distinct whiskies of region [g] in a table. *)
Definition region_size (g : string) (data : list Row) : Z :=
  Z.of_nat (List.length (unique Z.eqb
              (map Whisky_ID
                   (filter (fun r => opt_string_eqb (Whisky_Region r) g) data)))).

(** The whisky of a score row is not in the ['Whiskies'] sheet. *)
Definition unknown_whisky (wb : Workbook) (s : ScoreRow) : Prop :=
  ~ In (sc_Whisky_ID s) (map wh_Whisky_ID (Whiskies wb)).

(** The rows of a sheet that belong to the meeting of [w]. *)
Definition same_meeting (w : WhiskyRow) (sheet : list WhiskyRow)
    : list WhiskyRow :=
  filter (fun w' => Z.eqb (wh_Meeting_Number w') (wh_Meeting_Number w)) sheet.

(** *** On the report *)

(** Some other attendee scored a whisky of the target differently from
    the target (whose score for a whisky is the first one found). *)
Definition disagreement (data : list Row) (attendee_name : string) : Prop :=
  exists whisky_id target_score other_row,
    In whisky_id (map fst (scores_of_attendee data attendee_name)) /\
    first_score (scores_of_attendee data attendee_name) whisky_id
      = Ok target_score /\
    In other_row (others_on data attendee_name whisky_id) /\
    ~ (Whisky_Score other_row == target_score)%Q.

(** The entries of the working directory under the name [g]. *)
Definition entries (g : string) (w : World) : list (string * Content) :=
  filter (fun e => String.eqb (fst e) g) (files w).

(** The document of a report, from the person's rows and the two frames of
    the scoring-pattern analysis. *)
Definition document_of (attendee_name : string) (min_distillery_count : Z)
    (focus : list Row) (correlations_df : list CorrelationRow)
    (differences_df : list DifferenceRow) : Document :=
  mkDocument attendee_name (attendee_stats focus)
    (top_5 (map prepare_row focus)) (bottom_5 (map prepare_row focus))
    (top_3_regions (map prepare_row focus) min_distillery_count)
    (bottom_3_regions (map prepare_row focus) min_distillery_count)
    (head 3 correlations_df) (tail 3 correlations_df)
    (head 5 differences_df)
    (sort_values_desc Whisky_Score (map prepare_row focus)).

(** The three chart files are written. *)
Definition with_charts (w : World) : World :=
  write_file region_chart Image
    (write_file distillery_chart Image (write_file trend_chart Image w)).

(** The chart files, in the order of their removal. *)
Definition charts : list string :=
  [distillery_chart; region_chart; trend_chart].

(** A name is none of the three chart files. *)
Definition not_a_chart (g : string) : Prop :=
  g <> trend_chart /\ g <> distillery_chart /\ g <> region_chart.

End Notions.

(** * Properties *)

(** ** Facts about the frame operations *)

Module FrameFacts.
Import Frame.

Section Sorting.
Variable A : Type.
Variable leb : A -> A -> bool.

Lemma insert_perm (x : A) (l : list A) :
  Permutation (insert leb x l) (x :: l).
Proof.
  induction l as [|y l IH]; simpl.
  - apply Permutation_refl.
  - destruct (leb x y).
    + apply Permutation_refl.
    + apply perm_trans with (y :: x :: l).
      * apply perm_skip, IH.
      * apply perm_swap.
Qed.

Lemma sort_perm (l : list A) : Permutation (sort leb l) l.
Proof.
  induction l as [|x l IH]; simpl.
  - apply perm_nil.
  - apply perm_trans with (x :: sort leb l).
    + apply insert_perm.
    + apply perm_skip, IH.
Qed.

Lemma sort_In (x : A) (l : list A) : In x (sort leb l) <-> In x l.
Proof.
  split; apply Permutation_in;
    [apply sort_perm | apply Permutation_sym, sort_perm].
Qed.

Lemma sort_length (l : list A) : List.length (sort leb l) = List.length l.
Proof. apply Permutation_length, sort_perm. Qed.

Hypothesis leb_total : forall a b, leb a b = true \/ leb b a = true.
Hypothesis leb_trans :
  forall a b c, leb a b = true -> leb b c = true -> leb a c = true.

Let le (a b : A) : Prop := leb a b = true.

Lemma insert_sorted (x : A) (l : list A) :
  StronglySorted le l -> StronglySorted le (insert leb x l).
Proof.
  induction 1 as [|y l Hs IH Hall]; simpl.
  - constructor; constructor.
  - destruct (leb x y) eqn:E.
    + constructor.
      * constructor; assumption.
      * constructor; [exact E|].
        revert Hall. apply Forall_impl. intros z Hz.
        apply leb_trans with y; assumption.
    + constructor; [exact IH|].
      assert (Hyx : leb y x = true).
      { destruct (leb_total x y) as [H|H]; [congruence | exact H]. }
      apply Forall_forall. intros z Hz.
      apply (Permutation_in _ (insert_perm x l)) in Hz.
      destruct Hz as [<-|Hz]; [exact Hyx|].
      rewrite Forall_forall in Hall. apply Hall, Hz.
Qed.

Lemma sort_sorted (l : list A) : StronglySorted le (sort leb l).
Proof.
  induction l as [|x l IH]; simpl.
  - constructor.
  - apply insert_sorted, IH.
Qed.
End Sorting.

Section Unique.
Variable A : Type.
Variable eqb : A -> A -> bool.
Hypothesis eqb_spec : forall a b, eqb a b = true <-> a = b.

Lemma unique_In (x : A) (l : list A) : In x (unique eqb l) <-> In x l.
Proof.
  induction l as [|y l IH]; simpl; [tauto|].
  rewrite filter_In, IH. split.
  - intros [H|[H _]]; auto.
  - intros [H|H]; auto.
    destruct (eqb y x) eqn:E.
    + left. apply eqb_spec, E.
    + right. split; [exact H | reflexivity].
Qed.

Lemma unique_NoDup (l : list A) : NoDup (unique eqb l).
Proof.
  induction l as [|y l IH]; simpl; constructor.
  - rewrite filter_In. intros [_ H].
    assert (E : eqb y y = true) by (apply eqb_spec; reflexivity).
    rewrite E in H. discriminate.
  - apply NoDup_filter, IH.
Qed.

Lemma isin_In (x : A) (l : list A) : isin eqb x l = true <-> In x l.
Proof.
  unfold isin. rewrite existsb_exists. split.
  - intros [y [Hy E]]. apply eqb_spec in E. subst. exact Hy.
  - intros H. exists x. split; [exact H | apply eqb_spec; reflexivity].
Qed.
End Unique.

Lemma Qltb_lt (x y : Q) : Qltb x y = true <-> (x < y)%Q.
Proof.
  unfold Qltb. rewrite negb_true_iff. split.
  - intros H. apply Qnot_le_lt. intros C.
    apply Qle_bool_iff in C. congruence.
  - intros H. destruct (Qle_bool y x) eqn:E; [|reflexivity].
    apply Qle_bool_iff in E. exfalso. apply (Qlt_not_le _ _ H E).
Qed.

Lemma Qsum_ge (T : Q) (xs : list Q) :
  Forall (fun x => (T <= x)%Q) xs ->
  (T * inject_Z (Z.of_nat (List.length xs)) <= Qsum xs)%Q.
Proof.
  induction 1 as [|x xs Hx _ IH].
  - simpl. rewrite Qmult_0_r. apply Qle_refl.
  - change (List.length (x :: xs)) with (S (List.length xs)).
    rewrite Nat2Z.inj_succ. unfold Z.succ. rewrite inject_Z_plus.
    rewrite Qmult_plus_distr_r. simpl Qsum.
    rewrite Qplus_comm. apply Qplus_le_compat.
    + rewrite Qmult_1_r. exact Hx.
    + exact IH.
Qed.

(** The mean of a non-empty column is at least any lower bound of its
    cells. *)
Lemma mean_ge (T : Q) (xs : list Q) :
  xs <> [] -> Forall (fun x => (T <= x)%Q) xs -> (T <= mean xs)%Q.
Proof.
  intros Hne Hall. unfold mean.
  apply Qle_shift_div_l.
  - destruct xs as [|x xs]; [congruence|].
    change 0%Q with (inject_Z 0). rewrite <- Zlt_Qlt.
    simpl List.length. lia.
  - apply Qsum_ge, Hall.
Qed.

Lemma filter_map_comm (A B : Type) (f : A -> B) (p : B -> bool) (q : A -> bool)
    (l : list A) :
  (forall a, p (f a) = q a) ->
  filter p (map f l) = map f (filter q l).
Proof.
  intros H. induction l as [|a l IH]; simpl; [reflexivity|].
  rewrite H. destruct (q a); simpl; rewrite IH; reflexivity.
Qed.

Lemma flat_map_map_comm (A B C : Type) (f : A -> B) (g : B -> list C)
    (h : A -> list C) (l : list A) :
  (forall a, g (f a) = h a) -> flat_map g (map f l) = flat_map h l.
Proof.
  intros H. induction l as [|a l IH]; simpl; [reflexivity|].
  rewrite H, IH. reflexivity.
Qed.

End FrameFacts.

(** ** The loader *)

Module LoaderFacts.
Import Frame FrameFacts Data_Loading Notions.

Lemma prepare_whiskies_ids (earlier later : list WhiskyRow) :
  map w_row (prepare_whiskies earlier later) = later.
Proof.
  revert earlier. induction later as [|w later IH]; intros earlier; simpl.
  - reflexivity.
  - rewrite IH. reflexivity.
Qed.

Lemma unique_key_filter (A : Type) (key : A -> Z) (k : Z) (l : list A) :
  NoDup (map key l) ->
  (List.length (filter (fun a => Z.eqb (key a) k) l) <= 1)%nat.
Proof.
  induction l as [|a l IH]; simpl; intros Hnd; [lia|].
  inversion Hnd as [|? ? Hnotin Hnd']; subst.
  destruct (Z.eqb (key a) k) eqn:E.
  - apply Z.eqb_eq in E. simpl.
    assert (Hnil : filter (fun a0 => Z.eqb (key a0) k) l = []).
    { destruct (filter (fun a0 => Z.eqb (key a0) k) l) as [|b t] eqn:F;
        [reflexivity|].
      exfalso. apply Hnotin.
      assert (Hb : In b (filter (fun a0 => Z.eqb (key a0) k) l))
        by (rewrite F; left; reflexivity).
      apply filter_In in Hb. destruct Hb as [Hb Hk].
      apply Z.eqb_eq in Hk. rewrite E, <- Hk. apply in_map, Hb. }
    rewrite Hnil. simpl. lia.
  - apply IH, Hnd'.
Qed.

Lemma merge_row_score_part (whiskies_df : list Whisky) (s : ScoreRow) :
  Forall (fun r => score_part r = s) (merge_row whiskies_df s).
Proof.
  unfold merge_row. destruct (matches s whiskies_df) as [|w ws].
  - constructor; [destruct s; reflexivity | constructor].
  - apply Forall_forall. intros r Hr. apply in_map_iff in Hr.
    destruct Hr as [w' [<- _]]. destruct s; reflexivity.
Qed.

Lemma merge_row_single (whiskies_df : list Whisky) (s : ScoreRow) :
  NoDup (map (fun w => wh_Whisky_ID (w_row w)) whiskies_df) ->
  exists r, merge_row whiskies_df s = [r] /\ score_part r = s.
Proof.
  intros Hnd.
  pose proof (unique_key_filter (fun w => wh_Whisky_ID (w_row w))
                (sc_Whisky_ID s) whiskies_df Hnd) as Hlen.
  pose proof (merge_row_score_part whiskies_df s) as Hpart.
  unfold merge_row, matches in *.
  destruct (filter _ whiskies_df) as [|w [|w' ws]]; simpl in *.
  - eexists. split; [reflexivity|]. inversion Hpart; assumption.
  - eexists. split; [reflexivity|]. inversion Hpart; assumption.
  - lia.
Qed.

Lemma merge_left_score_part (scores_df : list ScoreRow)
    (whiskies_df : list Whisky) :
  NoDup (map (fun w => wh_Whisky_ID (w_row w)) whiskies_df) ->
  map score_part (merge_left scores_df whiskies_df) = scores_df.
Proof.
  intros Hnd. unfold merge_left.
  induction scores_df as [|s l IH]; simpl; [reflexivity|].
  destruct (@merge_row_single whiskies_df s Hnd) as [r [-> Hr]].
  simpl. rewrite Hr, IH. reflexivity.
Qed.

Lemma step_length (b : bool) (f : list Row -> list Row) (data : list Row) :
  (b = true -> List.length (f data) = List.length data) ->
  List.length (step b f data) = List.length data.
Proof. unfold step. destruct b; auto. Qed.

Lemma clean_keeps_all_rows (o : Options) (g : bool) (data : list Row) :
  keeps_all_rows o -> List.length (clean o g data) = List.length data.
Proof.
  intros (Hg & Hus & Ht & Hm). unfold clean.
  rewrite Hg, Hus. simpl andb.
  assert (E1 : Qltb 0 (remove_thresh o) = false).
  { destruct (Qltb 0 (remove_thresh o)) eqn:E; [|reflexivity].
    apply Qltb_lt in E. exfalso. apply (Qlt_not_le _ _ E Ht). }
  assert (E2 : Z.ltb 0 (min_whiskies_per_region o) = false)
    by (apply Z.ltb_ge; exact Hm).
  rewrite E1, E2. unfold step at 2 3 4 5; simpl.
  rewrite step_length by (intros; apply length_map).
  apply step_length. intros; apply length_map.
Qed.

(** C1. When the item identifier is unique in the ['Whiskies'] sheet, the
    left join keeps the score rows one for one: the score columns of the
    joined frame are the score sheet itself, so the frame has as many rows
    as the raw score set; and a load whose row-dropping transforms are
    switched off returns a table of that many rows. *)
Theorem left_join_keeps_score_rows (wb : Workbook)
    (Hunique : NoDup (map wh_Whisky_ID (Whiskies wb))) :
  map score_part (joined_frame wb) = Scores wb /\
  List.length (joined_frame wb) = List.length (Scores wb) /\
  forall o, keeps_all_rows o ->
    exists data, load_whisky_data o (Some wb) = Some data /\
                 List.length data = List.length (Scores wb).
Proof.
  assert (Hpart : map score_part (joined_frame wb) = Scores wb).
  { unfold joined_frame. apply merge_left_score_part.
    rewrite <- (map_map w_row wh_Whisky_ID), prepare_whiskies_ids.
    exact Hunique. }
  assert (Hlen : List.length (joined_frame wb) = List.length (Scores wb)).
  { rewrite <- Hpart. symmetry. apply length_map. }
  repeat split; [exact Hpart | exact Hlen |].
  intros o Ho. eexists. split; [reflexivity|].
  rewrite clean_keeps_all_rows by exact Ho. exact Hlen.
Qed.

Lemma left_join_keeps_score_rows_witness :
  NoDup (map wh_Whisky_ID (Whiskies Examples.club)) /\
  List.length (joined_frame Examples.club) = 5%nat.
Proof.
  assert (H : NoDup (map wh_Whisky_ID (Whiskies Examples.club))).
  { simpl. repeat constructor; simpl; intuition discriminate. }
  split; [exact H|].
  exact (proj1 (proj2 (left_join_keeps_score_rows Examples.club H))).
Defined.


(** *** Outlier removal and rescaling *)

Lemma rows_above_means_above (T : Q) (data : list Row) :
  (forall r, In r data -> (T <= Whisky_Score r)%Q) -> above_threshold T data.
Proof.
  intros Hrows. split; [exact Hrows|].
  intros r Hr. apply mean_ge.
  - unfold scores_of. intros C. apply map_eq_nil in C.
    assert (Hin : In r (filter (fun r0 => Z.eqb (Whisky_ID r0) (Whisky_ID r)) data)).
    { apply filter_In. split; [exact Hr | apply Z.eqb_refl]. }
    rewrite C in Hin. exact Hin.
  - unfold scores_of. apply Forall_map, Forall_forall.
    intros r' Hr'. apply filter_In in Hr'. apply Hrows, Hr'.
Qed.

Lemma drop_outliers_bound (T : Q) (data : list Row) (r : Row) :
  In r (drop_outliers T data) -> (T <= Whisky_Score r)%Q.
Proof.
  unfold drop_outliers. intros H. apply filter_In in H.
  destruct H as [_ H]. apply Qle_bool_iff, H.
Qed.

Lemma keep_valid_regions_In (m : Z) (data : list Row) (r : Row) :
  In r (keep_valid_regions m data) -> In r data.
Proof. unfold keep_valid_regions. intros H. apply filter_In in H. apply H. Qed.

Lemma clean_stages (o : Options) (g : bool) (data : list Row) :
  clean o g data =
  finish o (step (pointscale o) (map (rescale (remove_thresh o)))
                 (filtered o g data)).
Proof. reflexivity. Qed.

Lemma finish_from (o : Options) (data : list Row) (r : Row) :
  In r (finish o data) ->
  exists r0, In r0 data /\ score_part r = score_part r0.
Proof.
  unfold finish, step. intros H.
  destruct (fill_missing_age o).
  - apply in_map_iff in H. destruct H as [r0 [<- H]].
    exists r0. split; [|reflexivity].
    destruct (Z.ltb 0 (min_whiskies_per_region o));
      [eapply keep_valid_regions_In; exact H | exact H].
  - exists r. split; [|reflexivity].
    destruct (Z.ltb 0 (min_whiskies_per_region o));
      [eapply keep_valid_regions_In; exact H | exact H].
Qed.

Lemma filtered_In (o : Options) (g : bool) (data : list Row) (r : Row) :
  In r (filtered o g data) -> In r data.
Proof.
  unfold filtered, step, drop_outliers, drop_USA, drop_guests. intros H.
  destruct (Qltb 0 (remove_thresh o));
    [apply filter_In in H; destruct H as [H _];
     apply filter_In in H; destruct H as [H _]|];
    (destruct (remove_USwhiskies o);
       [apply filter_In in H; destruct H as [H _]|]);
    (destruct (remove_guests o && g);
       [apply filter_In in H; destruct H as [H _]|]); exact H.
Qed.

Lemma filtered_bound (o : Options) (g : bool) (data : list Row) (r : Row) :
  (0 < remove_thresh o)%Q ->
  In r (filtered o g data) -> (remove_thresh o <= Whisky_Score r)%Q.
Proof.
  intros Ht. unfold filtered.
  apply Qltb_lt in Ht. rewrite Ht. unfold step at 1.
  apply drop_outliers_bound.
Qed.

Lemma regions_rescale (T : Q) (data : list Row) :
  regions_of (map (rescale T) data) = regions_of data.
Proof.
  unfold regions_of. f_equal. f_equal.
  apply flat_map_map_comm. reflexivity.
Qed.

Lemma valid_regions_rescale (m : Z) (T : Q) (data : list Row) :
  valid_regions m (map (rescale T) data) = valid_regions m data.
Proof.
  unfold valid_regions, region_counts. rewrite regions_rescale.
  f_equal. f_equal. apply map_ext. intros g0. f_equal. f_equal. f_equal. f_equal.
  rewrite (@filter_map_comm _ _ (rescale T) _
             (fun r => opt_string_eqb (Whisky_Region r) g0))
    by reflexivity.
  rewrite map_map. reflexivity.
Qed.

Lemma finish_rescale (o : Options) (T : Q) (data : list Row) :
  finish o (map (rescale T) data) = map (rescale T) (finish o data).
Proof.
  unfold finish.
  assert (Hk : step (Z.ltb 0 (min_whiskies_per_region o))
                 (keep_valid_regions (min_whiskies_per_region o))
                 (map (rescale T) data)
               = map (rescale T)
                   (step (Z.ltb 0 (min_whiskies_per_region o))
                      (keep_valid_regions (min_whiskies_per_region o)) data)).
  { unfold step. destruct (Z.ltb 0 (min_whiskies_per_region o));
      [|reflexivity].
    unfold keep_valid_regions. rewrite valid_regions_rescale.
    apply filter_map_comm. reflexivity. }
  rewrite Hk. unfold step at 1 3. destruct (fill_missing_age o); [|reflexivity].
  rewrite !map_map. apply map_ext. reflexivity.
Qed.

(** A load with rescaling is the same load without it, every score then
    rescaled. *)
Lemma clean_pointscale (o : Options) (g : bool) (data : list Row) :
  pointscale o = true ->
  clean o g data
  = map (rescale (remove_thresh o)) (clean (with_pointscale false o) g data).
Proof.
  intros Hps.
  transitivity (finish o (map (rescale (remove_thresh o)) (filtered o g data))).
  - rewrite clean_stages, Hps. reflexivity.
  - rewrite finish_rescale. reflexivity.
Qed.

Lemma unscaled_bound (o : Options) (g : bool) (data : list Row) :
  (0 < remove_thresh o)%Q -> pointscale o = false ->
  above_threshold (remove_thresh o) (clean o g data).
Proof.
  intros Ht Hps. apply rows_above_means_above. intros r Hr.
  rewrite clean_stages, Hps in Hr. unfold step at 1 in Hr.
  apply finish_from in Hr. destruct Hr as [r0 [Hr0 E]].
  replace (Whisky_Score r) with (sc_Whisky_Score (score_part r)) by reflexivity.
  rewrite E. simpl. eapply filtered_bound; eassumption.
Qed.

Lemma rescale_nonneg (T : Q) (r : Row) :
  (T <= Whisky_Score r)%Q -> (0 <= Whisky_Score (rescale T r))%Q.
Proof.
  intros H. simpl. apply Qmult_le_0_compat; [|discriminate].
  unfold Qminus. rewrite <- Qle_minus_iff. exact H.
Qed.

(** C2, as the code has it.  With outlier removal enabled ([T > 0]) and
    rescaling disabled, every row of the returned table has a score of at
    least [T] and every item of the table has a mean of at least [T] over
    its remaining rows.  With rescaling enabled the two bounds hold of the
    scores before rescaling: the returned table is that bounded table with
    every score [s] replaced by [(s - T) * 10], so the returned scores are
    at least [0]. *)
Theorem outlier_removal_bounds (o : Options) (wb : Workbook) (data : list Row)
    (Hthresh : (0 < remove_thresh o)%Q)
    (Hload : load_whisky_data o (Some wb) = Some data) :
  (pointscale o = false -> above_threshold (remove_thresh o) data) /\
  (pointscale o = true ->
     exists unscaled,
       load_whisky_data (with_pointscale false o) (Some wb) = Some unscaled /\
       above_threshold (remove_thresh o) unscaled /\
       data = map (rescale (remove_thresh o)) unscaled /\
       forall r, In r data -> (0 <= Whisky_Score r)%Q).
Proof.
  simpl in Hload. injection Hload as <-. split.
  - intros Hps. apply unscaled_bound; assumption.
  - intros Hps. eexists. split; [reflexivity|].
    assert (Hb : above_threshold (remove_thresh o)
                   (clean (with_pointscale false o) (guest_column wb)
                          (joined_frame wb)))
      by (apply (@unscaled_bound (with_pointscale false o));
          [exact Hthresh | reflexivity]).
    split; [exact Hb|]. split; [apply clean_pointscale, Hps|].
    intros r Hr. rewrite clean_pointscale in Hr by exact Hps.
    apply in_map_iff in Hr. destruct Hr as [r0 [<- Hr0]].
    apply rescale_nonneg. apply (proj1 Hb), Hr0.
Qed.

Lemma outlier_removal_bounds_witness :
  exists data,
    load_whisky_data (mkOptions true false (6 # 1) false true 0)
                     (Some Examples.club) = Some data /\
    above_threshold (6 # 1) data.
Proof.
  eexists. split; [reflexivity|].
  refine (proj1 (@outlier_removal_bounds
                   (mkOptions true false (6 # 1) false true 0)
                   Examples.club _ _ eq_refl) eq_refl).
  reflexivity.
Defined.

(** C2 as stated fails when rescaling is enabled too: with [T = 6], the
    score 6.5 survives outlier removal and is returned as 5. *)
Lemma outlier_bound_fails_when_rescaled :
  (0 < 6 # 1)%Q /\
  exists data,
    load_whisky_data (mkOptions true false (6 # 1) true true 0)
                     (Some Examples.club) = Some data /\
    ~ above_threshold (6 # 1) data.
Proof.
  split; [reflexivity|].
  eexists. split; [reflexivity|].
  intros [Hrows _].
  specialize (Hrows (rescale (6 # 1)
                       (fill_age (joined (mkScoreRow 1 "Bob" 0 (13 # 2) 1)
                          (mkWhisky Examples.talisker 1 1))))).
  apply Hrows; [|reflexivity].
  vm_compute. right. left. reflexivity.
Qed.

(** C4. With rescaling enabled, the returned table is, row for row, the
    table the same load returns without rescaling, every score [s] replaced
    by [(s - T) * 10] with [T] the value of [remove_thresh] (whatever it is,
    [0] included); and the scores [s] are scores of the raw score sheet. *)
Theorem rescaling_exact (o : Options) (wb : Workbook) (data : list Row)
    (Hscale : pointscale o = true)
    (Hload : load_whisky_data o (Some wb) = Some data) :
  exists original,
    load_whisky_data (with_pointscale false o) (Some wb) = Some original /\
    Forall2 (fun r r0 =>
               Whisky_Score r = ((Whisky_Score r0 - remove_thresh o) * 10)%Q /\
               r = set_Whisky_Score (Whisky_Score r) r0)
            data original /\
    Forall (fun r0 => In (score_part r0) (Scores wb)) original.
Proof.
  simpl in Hload. injection Hload as <-.
  eexists. split; [reflexivity|]. split.
  - rewrite clean_pointscale by exact Hscale.
    induction (clean (with_pointscale false o) (guest_column wb)
                     (joined_frame wb)) as [|r0 l IH]; simpl;
      constructor; auto.
  - apply Forall_forall. intros r0 Hr0.
    rewrite clean_stages in Hr0.
    change (pointscale (with_pointscale false o)) with false in Hr0.
    unfold step at 1 in Hr0.
    apply finish_from in Hr0. destruct Hr0 as [r1 [Hr1 ->]].
    apply filtered_In in Hr1. unfold joined_frame, merge_left in Hr1.
    apply in_flat_map in Hr1. destruct Hr1 as [s [Hs Hr1]].
    pose proof (merge_row_score_part (prepare_whiskies [] (Whiskies wb)) s)
      as Hpart.
    rewrite Forall_forall in Hpart. rewrite (Hpart _ Hr1). exact Hs.
Qed.

Lemma rescaling_exact_witness :
  exists data original,
    load_whisky_data (mkOptions true false (6 # 1) true true 0)
                     (Some Examples.club) = Some data /\
    load_whisky_data (mkOptions true false (6 # 1) false true 0)
                     (Some Examples.club) = Some original /\
    Forall2 (fun r r0 =>
               Whisky_Score r = ((Whisky_Score r0 - (6 # 1)) * 10)%Q /\
               r = set_Whisky_Score (Whisky_Score r) r0)
            data original.
Proof.
  eexists.
  destruct (@rescaling_exact (mkOptions true false (6 # 1) true true 0)
              Examples.club _ eq_refl eq_refl) as [original [H1 [H2 _]]].
  exists original. split; [reflexivity|]. split; [exact H1 | exact H2].
Defined.

(** *** Missing ages *)

(** C5. With the age fill enabled, no row of the returned table has a null
    corrected age; the table is, row for row, the one the same load returns
    without the fill, and a row's flag [Age_Missing] is 1 exactly when its
    age was null before the fill (and 0 otherwise), a null age having become
    the sentinel [-1] and any other age being kept. *)
Theorem age_fill_complete (o : Options) (wb : Workbook) (data : list Row)
    (Hfill : fill_missing_age o = true)
    (Hload : load_whisky_data o (Some wb) = Some data) :
  Forall (fun r => Whisky_Age_Corrected r <> None) data /\
  exists before,
    load_whisky_data (with_fill_missing_age false o) (Some wb) = Some before /\
    Forall2 (fun r b =>
               (Age_Missing r = Some 1%Z <-> Whisky_Age_Corrected b = None) /\
               (Age_Missing r = Some 0%Z <-> Whisky_Age_Corrected b <> None) /\
               (Whisky_Age_Corrected b = None ->
                Whisky_Age_Corrected r = Some (-1)%Q) /\
               (forall a, Whisky_Age_Corrected b = Some a ->
                          Whisky_Age_Corrected r = Some a) /\
               score_part r = score_part b)
            data before.
Proof.
  simpl in Hload. injection Hload as <-.
  assert (E : clean o (guest_column wb) (joined_frame wb)
              = map fill_age (clean (with_fill_missing_age false o)
                                (guest_column wb) (joined_frame wb))).
  { unfold clean at 1. rewrite Hfill. reflexivity. }
  rewrite E. split.
  - apply Forall_map, Forall_forall. intros r _. simpl. discriminate.
  - eexists. split; [reflexivity|]. clear E.
    induction (clean (with_fill_missing_age false o) (guest_column wb)
                     (joined_frame wb)) as [|b l IH]; simpl;
      [constructor|].
    constructor; [|exact IH].
    destruct b as [? ? ? ? ? ? age ? ? ? ? ? ? ?].
    destruct age as [a|]; simpl;
      repeat split; try discriminate; try congruence; auto.
Qed.

Lemma age_fill_complete_witness :
  exists data,
    load_whisky_data default_options (Some Examples.club) = Some data /\
    Forall (fun r => Whisky_Age_Corrected r <> None) data.
Proof.
  eexists. split; [reflexivity|].
  exact (proj1 (@age_fill_complete default_options Examples.club _
                  eq_refl eq_refl)).
Defined.
End LoaderFacts.

(** ** The derived views *)

Module ReportFacts.
Import Frame FrameFacts Data_Loading whisky_report_generator Notions.

Lemma for_each_In (T U : Type) (body : T -> result (list U)) (l : list T)
    (rows : list U) (u : U) :
  for_each body l = Ok rows -> In u rows ->
  exists x ys, In x l /\ body x = Ok ys /\ In u ys.
Proof.
  revert rows. induction l as [|x l IH]; simpl; intros rows H Hu.
  - injection H as <-. destruct Hu.
  - destruct (body x) as [ys|e] eqn:Ex; simpl in H; [|discriminate].
    destruct (for_each body l) as [rest|e] eqn:El; simpl in H; [|discriminate].
    injection H as <-. apply in_app_or in Hu. destruct Hu as [Hu|Hu].
    + exists x, ys. auto.
    + destruct (IH rest eq_refl Hu) as [x' [ys' [Hx' H']]].
      exists x', ys'. auto.
Qed.

(** *** The largest difference on one whisky *)

Section Largest.
Variable target_score : Q.

Lemma visit_selected (seen : list Row) (acc : Q * option Row) (r : Row) :
  selected target_score seen acc ->
  selected target_score (seen ++ [r]) (visit target_score acc r).
Proof.
  unfold selected, visit. fold (diff_to target_score r).
  destruct acc as [d [row|]]; simpl.
  - intros (Hd & Hpos & earlier & later & -> & Hearlier & Hlater).
    destruct (Qltb d (diff_to target_score r)) eqn:E; simpl.
    + apply Qltb_lt in E. rewrite Hd in E.
      split; [reflexivity|]. split.
      * apply Qlt_trans with d; [exact Hpos | rewrite Hd; exact E].
      * exists (earlier ++ row :: later), []. split; [reflexivity|].
        split; [|constructor].
        apply Forall_app. split.
        -- revert Hearlier. apply Forall_impl. intros a Ha.
           apply Qlt_trans with (diff_to target_score row); assumption.
        -- constructor; [exact E|].
           revert Hlater. apply Forall_impl. intros a Ha.
           apply Qle_lt_trans with (diff_to target_score row); assumption.
    + split; [exact Hd|]. split; [exact Hpos|].
      exists earlier, (later ++ [r]). split.
      * rewrite <- app_assoc. reflexivity.
      * split; [exact Hearlier|].
        apply Forall_app. split; [exact Hlater|].
        constructor; [|constructor].
        rewrite <- Hd. apply Qnot_lt_le. intros C.
        apply Qltb_lt in C. congruence.
  - intros [Hd Hall]. subst d.
    destruct (Qltb 0 (diff_to target_score r)) eqn:E; simpl.
    + apply Qltb_lt in E. split; [reflexivity|]. split; [exact E|].
      exists seen, []. split; [reflexivity|]. split; [|constructor].
      revert Hall. apply Forall_impl. intros a Ha.
      apply Qle_lt_trans with 0%Q; assumption.
    + split; [reflexivity|].
      apply Forall_app. split; [exact Hall|].
      constructor; [|constructor].
      apply Qnot_lt_le. intros C. apply Qltb_lt in C. congruence.
Qed.

Lemma largest_difference_selected (other_scores : list Row) :
  selected target_score other_scores (largest_difference target_score other_scores).
Proof.
  unfold largest_difference.
  induction other_scores as [|r l IH] using rev_ind.
  - simpl. split; [reflexivity | constructor].
  - rewrite fold_left_app. simpl. apply visit_selected, IH.
Qed.
End Largest.


(** *** Sorting a frame of records *)

Lemma partition_perm (A : Type) (p : A -> bool) (l : list A) :
  Permutation (filter p l ++ filter (fun a => negb (p a)) l) l.
Proof.
  induction l as [|a l IH]; simpl; [apply perm_nil|].
  destruct (p a); simpl.
  - apply perm_skip, IH.
  - apply Permutation_sym, Permutation_cons_app, Permutation_sym, IH.
Qed.

Lemma sort_values_desc_na_perm (A : Type) (key : A -> option Q) (l : list A) :
  Permutation (sort_values_desc_na key l) l.
Proof.
  unfold sort_values_desc_na.
  apply perm_trans with
    (filter (has_value key) l ++ filter (fun a => negb (has_value key a)) l).
  - apply Permutation_app_tail, sort_perm.
  - apply partition_perm.
Qed.

Lemma frame_sort_values_Ok (T : Type) (col : string)
    (sorter : list T -> list T) (records rows : list T) :
  frame_sort_values col sorter records = Ok rows ->
  records <> [] /\ rows = sorter records.
Proof.
  destruct records; simpl; intros H; [discriminate|].
  injection H as <-. split; [discriminate | reflexivity].
Qed.

Lemma frame_sort_values_Raise (T : Type) (col : string)
    (sorter : list T -> list T) (records : list T) (e : exn) :
  frame_sort_values col sorter records = Raise e ->
  records = [] /\ e = KeyError col.
Proof.
  destruct records; simpl; intros H; [|discriminate].
  injection H as <-. split; reflexivity.
Qed.

Lemma key_geb_desc_na (A : Type) (key : A -> option Q) (a b : A) :
  key_geb key a b = true <-> desc_na (key a) (key b).
Proof.
  unfold key_geb, desc_na. destruct (key a), (key b);
    try (split; intros; (reflexivity || exact I || discriminate || contradiction)).
  apply Qle_bool_iff.
Qed.

Lemma key_geb_total (A : Type) (key : A -> option Q) (a b : A) :
  key_geb key a b = true \/ key_geb key b a = true.
Proof.
  unfold key_geb. destruct (key a) as [x|], (key b) as [y|]; auto.
  destruct (Qlt_le_dec x y) as [H|H].
  - right. apply Qle_bool_iff, Qlt_le_weak, H.
  - left. apply Qle_bool_iff, H.
Qed.

Lemma key_geb_trans (A : Type) (key : A -> option Q) (a b c : A) :
  key_geb key a b = true -> key_geb key b c = true -> key_geb key a c = true.
Proof.
  unfold key_geb. destruct (key a) as [x|], (key b) as [y|], (key c) as [z|];
    try (intros; (reflexivity || discriminate)).
  rewrite !Qle_bool_iff. intros H1 H2. apply Qle_trans with y; assumption.
Qed.

Lemma StronglySorted_app (A : Type) (R : A -> A -> Prop) (l1 l2 : list A) :
  StronglySorted R l1 -> StronglySorted R l2 ->
  (forall a b, In a l1 -> In b l2 -> R a b) ->
  StronglySorted R (l1 ++ l2).
Proof.
  induction 1 as [|a l1 Hs IH Hall]; simpl; intros H2 Hcross; [exact H2|].
  constructor.
  - apply IH; [exact H2|]. intros x y Hx Hy. apply Hcross; [right|]; assumption.
  - apply Forall_app. split; [exact Hall|].
    apply Forall_forall. intros y Hy. apply Hcross; [left; reflexivity | exact Hy].
Qed.

Lemma all_nan_sorted (A : Type) (key : A -> option Q) (l : list A) :
  Forall (fun a => key a = None) l ->
  StronglySorted (fun a b => desc_na (key a) (key b)) l.
Proof.
  induction 1 as [|a l Ha Hl IH]; constructor; [exact IH|].
  revert Hl. apply Forall_impl. intros b Hb. rewrite Hb.
  destruct (key a); exact I.
Qed.

Lemma sort_values_desc_na_sorted (A : Type) (key : A -> option Q)
    (l : list A) :
  StronglySorted (fun a b => desc_na (key a) (key b))
                 (sort_values_desc_na key l).
Proof.
  unfold sort_values_desc_na. apply StronglySorted_app.
  - pose proof (sort_sorted (key_geb key) (key_geb_total key)
                  (@key_geb_trans _ key) (filter (has_value key) l)) as H.
    induction H as [|a t Hs IH Hall]; constructor; [exact IH|].
    revert Hall. apply Forall_impl. intros b Hb.
    apply key_geb_desc_na, Hb.
  - apply all_nan_sorted, Forall_forall. intros a Ha.
    apply filter_In in Ha. destruct Ha as [_ Ha].
    unfold has_value in Ha. destruct (key a); [discriminate | reflexivity].
  - intros a b _ Hb. apply filter_In in Hb. destruct Hb as [_ Hb].
    unfold has_value in Hb. destruct (key b); [discriminate|].
    destruct (key a); exact I.
Qed.

Lemma sort_values_desc_sorted (A : Type) (key : A -> Q) (l : list A) :
  StronglySorted (fun a b => (key b <= key a)%Q) (sort_values_desc key l).
Proof.
  unfold sort_values_desc.
  assert (H : StronglySorted
                (fun a b => Qle_bool (key b) (key a) = true)
                (sort (fun a b => Qle_bool (key b) (key a)) l)).
  { apply sort_sorted.
    - intros a b. destruct (Qlt_le_dec (key a) (key b)) as [H|H].
      + right. apply Qle_bool_iff, Qlt_le_weak, H.
      + left. apply Qle_bool_iff, H.
    - intros a b c. rewrite !Qle_bool_iff. intros H1 H2.
      apply Qle_trans with (key b); assumption. }
  induction H as [|a t Hs IH Hall]; constructor; [exact IH|].
  revert Hall. apply Forall_impl. intros b Hb. apply Qle_bool_iff, Hb.
Qed.

(** *** Correlations *)

Lemma other_attendees_In (data : list Row) (attendee_name p : string) :
  In p (other_attendees data attendee_name) <->
  p <> attendee_name /\ In p (map Attendee data).
Proof.
  unfold other_attendees. rewrite (unique_In String.eqb String.eqb_eq).
  rewrite !in_map_iff. split.
  - intros [r [<- Hr]]. apply filter_In in Hr. destruct Hr as [Hr Hne].
    apply negb_true_iff, String.eqb_neq in Hne. split; [exact Hne|].
    exists r. auto.
  - intros [Hne [r [<- Hr]]]. exists r. split; [reflexivity|].
    apply filter_In. split; [exact Hr|].
    apply negb_true_iff, String.eqb_neq, Hne.
Qed.

Section CorrelationFacts.
Variable corr : list Q -> list Q -> option Q.
Variable data : list Row.
Variable attendee_name : string.
Variable min : Z.

Let target_scores := scores_of_attendee data attendee_name.

Lemma correlation_rows_names (others : list string) :
  map c_Attendee
      (flat_map (correlation_row corr target_scores data min) others)
  = filter (fun p => Z.leb min
              (Z.of_nat (List.length (common data attendee_name p))))
           others.
Proof.
  induction others as [|p l IH]; simpl; [reflexivity|].
  rewrite map_app, IH. unfold correlation_row at 1.
  fold (common data attendee_name p).
  destruct (Z.leb min _); reflexivity.
Qed.

Lemma correlation_rows_content (others : list string) :
  Forall (row_of corr data attendee_name)
         (flat_map (correlation_row corr target_scores data min) others).
Proof.
  apply Forall_flat_map, Forall_forall. intros p _.
  unfold correlation_row. fold (common data attendee_name p).
  destruct (Z.leb min _); constructor; [|constructor].
  split; reflexivity.
Qed.

Lemma qualifies_filter (p : string) :
  In p (filter (fun p => Z.leb min
                  (Z.of_nat (List.length (common data attendee_name p))))
               (other_attendees data attendee_name))
  <-> qualifies data attendee_name min p.
Proof.
  rewrite filter_In, other_attendees_In, Z.leb_le.
  unfold qualifies. tauto.
Qed.

(** When [calculate_attendee_correlations] returns a frame, the frame
    has exactly one row for each other attendee whose inner join with the
    target on the whisky identifier has at least [min_common_whiskies]
    rows, and no other row; a row holds that count and the correlation
    [Series.corr] gives for the two score columns of the join; the rows
    are in descending order of correlation, undefined correlations last.
    The function raises [KeyError] exactly when no attendee qualifies. *)
Theorem correlations_characterised :
  match calculate_attendee_correlations corr data attendee_name min with
  | Ok rows =>
      NoDup (map c_Attendee rows) /\
      (forall p, In p (map c_Attendee rows)
                 <-> qualifies data attendee_name min p) /\
      Forall (row_of corr data attendee_name) rows /\
      StronglySorted (fun a b => desc_na (Correlation a) (Correlation b))
                     rows
  | Raise e =>
      e = KeyError "Correlation" /\
      forall p, ~ qualifies data attendee_name min p
  end.
Proof.
  unfold calculate_attendee_correlations. fold target_scores.
  set (correlations :=
         flat_map (correlation_row corr target_scores data min)
                  (other_attendees data attendee_name)).
  pose proof (correlation_rows_names (other_attendees data attendee_name))
    as Hnames. fold correlations in Hnames.
  pose proof (correlation_rows_content (other_attendees data attendee_name))
    as Hcontent. fold correlations in Hcontent.
  destruct (frame_sort_values "Correlation"
              (sort_values_desc_na Correlation) correlations)
    as [rows|e] eqn:E.
  - apply frame_sort_values_Ok in E. destruct E as [_ ->].
    pose proof (sort_values_desc_na_perm Correlation correlations) as Hperm.
    assert (Hp : Permutation
                   (map c_Attendee
                        (sort_values_desc_na Correlation correlations))
                   (filter (fun p => Z.leb min
                      (Z.of_nat (List.length (common data attendee_name p))))
                      (other_attendees data attendee_name))).
    { rewrite <- Hnames. apply Permutation_map, Hperm. }
    split; [|split; [|split]].
    + apply (Permutation_NoDup (Permutation_sym Hp)).
      apply NoDup_filter. apply (unique_NoDup String.eqb String.eqb_eq).
    + intros p. rewrite <- qualifies_filter. split.
      * apply Permutation_in, Hp.
      * apply Permutation_in, Permutation_sym, Hp.
    + apply (Permutation_Forall (Permutation_sym Hperm)), Hcontent.
    + apply sort_values_desc_na_sorted.
  - apply frame_sort_values_Raise in E. destruct E as [E ->].
    split; [reflexivity|]. intros p Hq.
    apply qualifies_filter in Hq. rewrite <- Hnames, E in Hq. exact Hq.
Qed.
End CorrelationFacts.

(** C6 on the workbook [club], for the target Ann and the minimum of 50.
    After the default load Ann holds the scores 8 and 7 of the whiskies 1
    and 2 and Bob, the only other attendee, the scores 6.5 and 9 of the same
    two, so the join has two rows, nobody reaches the minimum and the frame
    to return has no row.  The function builds it from an empty list of
    records, and sorting a frame without columns by ['Correlation'] raises
    [KeyError]: no frame is returned, where the docstring promises the frame
    of correlations.  With a minimum of 2 the same call returns the row of
    Bob, with [Series.corr] of the two joined columns. *)
Theorem no_qualifying_attendee_raises (corr : list Q -> list Q -> option Q) :
  load_whisky_data default_options (Some Examples.club)
    = Some Examples.club_data /\
  scores_of_attendee Examples.club_data "Ann" = [(1%Z, 8 # 1); (2%Z, 7 # 1)] /\
  other_attendees Examples.club_data "Ann" = ["Bob"%string] /\
  scores_of_attendee Examples.club_data "Bob" = [(1%Z, 13 # 2); (2%Z, 9 # 1)] /\
  common_whiskies (scores_of_attendee Examples.club_data "Ann")
                  (scores_of_attendee Examples.club_data "Bob")
    = [(1%Z, 8 # 1, 13 # 2); (2%Z, 7 # 1, 9 # 1)] /\
  calculate_attendee_correlations corr Examples.club_data "Ann" 50
    = Raise (KeyError "Correlation") /\
  calculate_attendee_correlations corr Examples.club_data "Ann" 2
    = Ok [mkCorrelationRow "Bob"
            (corr [8 # 1; 7 # 1] [13 # 2; 9 # 1]) 2].
Proof.
  repeat split; try (vm_compute; reflexivity).
  vm_compute. destruct (corr _ _); reflexivity.
Qed.

(** *** Largest differences *)

Lemma difference_rows_largest (data : list Row) (attendee_name : string)
    (whisky_id : Z) (rows : list DifferenceRow) :
  difference_rows data attendee_name
                  (scores_of_attendee data attendee_name) whisky_id = Ok rows ->
  (List.length rows <= 1)%nat /\
  Forall (fun d => d_Whisky_ID d = whisky_id /\
                   largest_on data attendee_name d) rows.
Proof.
  unfold difference_rows.
  destruct (first_score (scores_of_attendee data attendee_name) whisky_id)
    as [target_score|e] eqn:Ef; simpl; [|discriminate].
  pose proof (largest_difference_selected target_score
                (others_on data attendee_name whisky_id)) as Hsel.
  destruct (largest_difference target_score
              (others_on data attendee_name whisky_id)) as [max_diff [row|]].
  - destruct (Qltb 0 max_diff) eqn:Epos; intros H; injection H as <-;
      simpl; (split; [lia|]); constructor; [|constructor].
    split; [reflexivity|].
    unfold selected in Hsel. simpl in Hsel.
    destruct Hsel as (Hd & Hpos & earlier & later & Hsplit & He & Hl).
    unfold largest_on. simpl. split; [exact Ef|]. split; [exact Hpos|].
    exists earlier, row, later. rewrite Hd.
    repeat split; assumption.
  - intros H. injection H as <-. simpl. split; [lia | constructor].
Qed.

Lemma others_on_In (data : list Row) (attendee_name : string) (whisky_id : Z)
    (r : Row) :
  In r (others_on data attendee_name whisky_id) <->
  In r data /\ Attendee r <> attendee_name /\ Whisky_ID r = whisky_id.
Proof.
  unfold others_on. rewrite filter_In, andb_true_iff, negb_true_iff.
  rewrite String.eqb_neq, Z.eqb_eq. tauto.
Qed.

Lemma largest_on_other (data : list Row) (attendee_name : string)
    (d : DifferenceRow) :
  largest_on data attendee_name d -> Other_Attendee d <> attendee_name.
Proof.
  intros (_ & _ & earlier & row & later & Hsplit & -> & _).
  assert (Hin : In row (others_on data attendee_name (d_Whisky_ID d))).
  { rewrite Hsplit. apply in_or_app. right. left. reflexivity. }
  apply others_on_In in Hin. apply Hin.
Qed.

Lemma for_each_unique_keys (body : Z -> result (list DifferenceRow))
    (ids : list Z) (rows : list DifferenceRow) :
  (forall x ys, body x = Ok ys ->
     (List.length ys <= 1)%nat /\ Forall (fun d => d_Whisky_ID d = x) ys) ->
  NoDup ids -> for_each body ids = Ok rows ->
  NoDup (map d_Whisky_ID rows).
Proof.
  intros Hbody. revert rows.
  induction ids as [|x l IH]; simpl; intros rows Hnd H.
  - injection H as <-. constructor.
  - inversion Hnd as [|? ? Hnotin Hnd']; subst.
    destruct (body x) as [ys|e] eqn:Ex; simpl in H; [|discriminate].
    destruct (for_each body l) as [rest|e] eqn:El; simpl in H; [|discriminate].
    injection H as <-.
    destruct (Hbody x ys Ex) as [Hlen Hids].
    specialize (IH rest Hnd' eq_refl).
    destruct ys as [|d [|d' ys]]; simpl in *; [exact IH | | lia].
    constructor; [|exact IH].
    inversion Hids as [|? ? Hd _]; subst.
    intros Hin. apply Hnotin. apply in_map_iff in Hin.
    destruct Hin as [d0 [E0 Hd0]].
    destruct (for_each_In _ _ _ El Hd0) as [x' [ys' [Hx' [Eb' Hin']]]].
    destruct (Hbody x' ys' Eb') as [_ Hids'].
    rewrite Forall_forall in Hids'. rewrite <- E0, (Hids' _ Hin'). exact Hx'.
Qed.

(** What [find_largest_score_differences] returns, when it returns: every
    row reports the first largest, non-zero difference on its whisky; the
    rows are in descending order of absolute difference; and when the
    target has one score row per whisky, no whisky has two rows. *)
Lemma largest_differences_characterised (data : list Row)
    (attendee_name : string) (rows : list DifferenceRow) :
  find_largest_score_differences data attendee_name = Ok rows ->
  Forall (largest_on data attendee_name) rows /\
  StronglySorted (fun a b => (Absolute_Difference b <= Absolute_Difference a)%Q)
                 rows /\
  (NoDup (map fst (scores_of_attendee data attendee_name)) ->
   NoDup (map d_Whisky_ID rows)).
Proof.
  unfold find_largest_score_differences.
  destruct (for_each
              (difference_rows data attendee_name
                 (scores_of_attendee data attendee_name))
              (map fst (scores_of_attendee data attendee_name)))
    as [records|e] eqn:E; simpl; [|discriminate].
  intros H. apply frame_sort_values_Ok in H. destruct H as [_ ->].
  pose proof (sort_perm (fun a b => Qle_bool (Absolute_Difference b)
                                             (Absolute_Difference a)) records)
    as Hperm.
  split; [|split].
  - apply (Permutation_Forall (Permutation_sym Hperm)).
    apply Forall_forall. intros d Hd.
    destruct (for_each_In _ _ _ E Hd) as [x [ys [_ [Hb Hin]]]].
    apply difference_rows_largest in Hb. destruct Hb as [_ Hb].
    rewrite Forall_forall in Hb. apply (Hb d Hin).
  - apply sort_values_desc_sorted.
  - intros Hnd.
    apply (Permutation_NoDup
             (Permutation_map d_Whisky_ID (Permutation_sym Hperm))).
    eapply for_each_unique_keys; [|exact Hnd|exact E].
    intros x ys Hb. apply difference_rows_largest in Hb.
    destruct Hb as [Hlen Hb]. split; [exact Hlen|].
    revert Hb. apply Forall_impl. intros d Hd. apply Hd.
Qed.

(** C10. A frame returned by [calculate_attendee_correlations] has no row
    whose attendee is the target, and a frame returned by
    [find_largest_score_differences] has no row whose other attendee is the
    target. *)
Theorem never_compared_with_self (corr : list Q -> list Q -> option Q)
    (data : list Row) (attendee_name : string) (min_common_whiskies : Z) :
  (forall rows,
     calculate_attendee_correlations corr data attendee_name
                                     min_common_whiskies = Ok rows ->
     Forall (fun c => c_Attendee c <> attendee_name) rows) /\
  (forall rows,
     find_largest_score_differences data attendee_name = Ok rows ->
     Forall (fun d => Other_Attendee d <> attendee_name) rows).
Proof.
  split; intros rows H.
  - pose proof (correlations_characterised corr data attendee_name
                  min_common_whiskies) as Hc.
    rewrite H in Hc. destruct Hc as (_ & Hq & _).
    apply Forall_forall. intros c Hc.
    assert (Hin : In (c_Attendee c) (map c_Attendee rows))
      by (apply in_map, Hc).
    apply Hq in Hin. apply Hin.
  - apply largest_differences_characterised in H. destruct H as [H _].
    revert H. apply Forall_impl. intros d. apply largest_on_other.
Qed.

Lemma never_compared_with_self_witness :
  exists crows drows,
    calculate_attendee_correlations (fun _ _ => None) Examples.club_data
                                    "Ann" 1 = Ok crows /\
    find_largest_score_differences Examples.club_data "Ann" = Ok drows /\
    Forall (fun c => c_Attendee c <> "Ann"%string) crows /\
    Forall (fun d => Other_Attendee d <> "Ann"%string) drows.
Proof.
  eexists. eexists.
  split; [reflexivity|]. split; [reflexivity|]. split.
  - apply (proj1 (never_compared_with_self (fun _ _ => None)
                    Examples.club_data "Ann" 1)). reflexivity.
  - apply (proj2 (never_compared_with_self (fun _ _ => None)
                    Examples.club_data "Ann" 1)). reflexivity.
Defined.

(** C3 on a table where the target has two score rows for one whisky: the
    loop runs once per score row, so whisky 1 gets two rows (both computed
    from the first of the target's scores), where the docstring promises
    the single largest difference per whisky. *)
Theorem repeated_score_repeats_difference_row :
  exists data rows,
    load_whisky_data default_options (Some Examples.retasting) = Some data /\
    find_largest_score_differences data "Ann" = Ok rows /\
    map d_Whisky_ID rows = [1%Z; 1%Z] /\
    map Other_Attendee rows = ["Bob"%string; "Bob"%string] /\
    map Target_Score rows = [8 # 1; 8 # 1] /\
    map Absolute_Difference rows = [2 # 1; 2 # 1] /\
    ~ NoDup (map d_Whisky_ID rows).
Proof.
  eexists. eexists. split; [reflexivity|]. split; [vm_compute; reflexivity|].
  repeat (split; [reflexivity|]).
  simpl. intros H. inversion H as [|? ? Hnotin _]. apply Hnotin.
  left. reflexivity.
Qed.

(** The example of the specification: against scores 6 and 9, a score of 8
    is reported against the 6. *)
Example largest_difference_8_6_9 :
  find_largest_score_differences
    [ Examples.scored_by "A" 1 "Talisker" "Islands" (8 # 1);
      Examples.scored_by "B" 1 "Talisker" "Islands" (6 # 1);
      Examples.scored_by "C" 1 "Talisker" "Islands" (9 # 1) ]
    "A"
  = Ok [mkDifferenceRow 1 None (Some "Talisker"%string) (Some (12 # 1)) "B"
                        (8 # 1) (6 # 1) (2 # 1)].
Proof. vm_compute. reflexivity. Qed.

(** *** Region aggregates *)



(** C7 on a person with five Islay rows and six Speyside rows, at the
    default minimum of 5: Islay is among the most scored regions and has
    the minimum count, yet the region filter drops it, while the distillery
    filter keeps the distillery with the same five rows. *)
Theorem region_with_minimum_count_dropped :
  map (fun a => (group_name a, whisky_count a))
      (top_regions Examples.ann_focus)
    = [("Speyside"%string, 6%Z); ("Islay"%string, 5%Z)] /\
  map (fun a => (group_name a, whisky_count a))
      (filtered_regions Examples.ann_focus 5)
    = [("Speyside"%string, 6%Z)] /\
  map group_name (top_3_regions Examples.ann_focus 5) = ["Speyside"%string] /\
  map group_name (bottom_3_regions Examples.ann_focus 5) = ["Speyside"%string] /\
  map (fun a => (group_name a, whisky_count a))
      (filtered_distilleries Examples.ann_focus)
    = [("Ardbeg"%string, 5%Z); ("Glenfarclas"%string, 6%Z)].
Proof. vm_compute. repeat split. Qed.

(** *** The orchestrator *)

Section OrchestratorFacts.
Variable corr : list Q -> list Q -> option Q.
Variable lower : string -> string.

(** C8. When the loaded table has no row for the requested name, the body
    of the report raises the error ["No data found for attendee: ..."]
    before anything is drawn or written; the function prints the error and
    returns [None], and the files are as they were: no report, empty or
    partial, is produced. *)
Theorem missing_person_fails (attendee_name : string)
    (min_distillery_count : Z) (w : World) (data : list Row)
    (Hload : load_whisky_data default_options (master_file w) = Some data)
    (Hnone : filter (fun r => String.eqb (Attendee r) attendee_name) data = []) :
  report_body corr lower attendee_name min_distillery_count w
    = (Raise (ValueError ("No data found for attendee: " ++ attendee_name)), w)
  /\
  generate_personal_whisky_report corr lower attendee_name min_distillery_count w
    = (None,
       print ("Error generating report: No data found for attendee: "
                ++ attendee_name) w)
  /\
  files (snd (generate_personal_whisky_report corr lower attendee_name
                min_distillery_count w)) = files w.
Proof.
  assert (Hbody : report_body corr lower attendee_name min_distillery_count w
            = (Raise (ValueError ("No data found for attendee: "
                                    ++ attendee_name)), w)).
  { unfold report_body, mbind, call_load_whisky_data.
    change (mkOptions true false 0 false true 0) with default_options.
    rewrite Hload. unfold ret at 1. rewrite Hnone. reflexivity. }
  unfold generate_personal_whisky_report. rewrite Hbody.
  repeat split.
Qed.

End OrchestratorFacts.

Lemma missing_person_fails_witness :
  generate_personal_whisky_report (fun _ _ => None)
      Examples.ascii_lower "Zed" 5
    (mkWorld (Some Examples.club) [] [])
  = (None,
     mkWorld (Some Examples.club) []
       ["Error generating report: No data found for attendee: Zed"%string]).
Proof.
  exact (proj1 (proj2 (@missing_person_fails (fun _ _ => None)
                         Examples.ascii_lower "Zed" 5
                         (mkWorld (Some Examples.club) [] [])
                         Examples.club_data eq_refl eq_refl))).
Defined.

(** *** Chart files *)

Lemma exists_file_In (f : string) (w : World) :
  exists_file f w = true <-> In f (map fst (files w)).
Proof. unfold exists_file. apply (isin_In String.eqb String.eqb_eq). Qed.

Lemma remove_file_gone (f : string) (w : World) :
  exists_file f (remove_file f w) = false.
Proof.
  apply not_true_is_false. rewrite exists_file_In. simpl.
  rewrite in_map_iff. intros [g [E Hg]]. apply filter_In in Hg.
  destruct Hg as [_ Hg]. apply negb_true_iff, String.eqb_neq in Hg.
  congruence.
Qed.

Lemma remove_file_keeps_absent (f g : string) (w : World) :
  exists_file g w = false -> exists_file g (remove_file f w) = false.
Proof.
  intros H. apply not_true_is_false. intros C. apply not_true_iff_false in H.
  apply H. rewrite exists_file_In in *. simpl in C.
  apply in_map_iff in C. destruct C as [x [E Hx]]. apply filter_In in Hx.
  apply in_map_iff. exists x. split; [exact E | apply Hx].
Qed.

Lemma remove_charts_removes (charts : list string) (w : World) :
  fst (remove_charts charts w) = Ok tt /\
  (forall g, exists_file g w = false ->
             exists_file g (snd (remove_charts charts w)) = false) /\
  (forall c, In c charts ->
             exists_file c (snd (remove_charts charts w)) = false).
Proof.
  revert w. induction charts as [|chart rest IH]; intros w.
  - simpl. repeat split; auto. intros c [].
  - simpl. unfold mbind.
    destruct (exists_file chart w) eqn:E.
    + destruct (IH (remove_file chart w)) as (Hok & Hkeep & Hgone).
      split; [exact Hok|]. split.
      * intros g Hg. apply Hkeep, remove_file_keeps_absent, Hg.
      * intros c [<-|Hc]; [apply Hkeep, remove_file_gone | apply Hgone, Hc].
    + destruct (IH w) as (Hok & Hkeep & Hgone).
      split; [exact Hok|]. split; [exact Hkeep|].
      intros c [<-|Hc]; [apply Hkeep, E | apply Hgone, Hc].
Qed.

(** When a report is produced, the three chart files are gone. *)
Lemma charts_removed_on_success (corr : list Q -> list Q -> option Q)
    (lower : string -> string)
    (attendee_name : string) (min_distillery_count : Z) (w w' : World)
    (filename : string) :
  generate_personal_whisky_report corr lower attendee_name min_distillery_count w
    = (Some filename, w') ->
  forall c, In c [trend_chart; distillery_chart; region_chart] ->
            exists_file c w' = false.
Proof.
  unfold generate_personal_whisky_report, report_body, mbind,
    call_load_whisky_data, lift, effect.
  destruct (load_whisky_data _ (master_file w)) as [data|];
    [|unfold raise; discriminate].
  unfold ret at 1.
  destruct (filter _ data) as [|r focus]; [unfold raise; discriminate|].
  destruct (calculate_attendee_correlations corr data attendee_name 50)
    as [correlations_df|e]; [|discriminate].
  destruct (find_largest_score_differences data attendee_name)
    as [differences_df|e]; [|discriminate].
  match goal with
  | |- context [remove_charts ?l ?w0] =>
      pose proof (remove_charts_removes l w0) as (Hok & _ & Hgone);
      destruct (remove_charts l w0) as [[u|e] w1]
  end; simpl in Hok; [|discriminate].
  unfold ret. intros H. injection H as _ <-.
  intros c Hc. apply Hgone. simpl in *. tauto.
Qed.


(** When the person has rows and the correlation frame cannot be built,
    the report fails with the three charts written and none removed. *)
Lemma charts_left_when_correlations_raise
    (corr : list Q -> list Q -> option Q)
    (lower : string -> string) (attendee_name : string)
    (min_distillery_count : Z) (w : World) (data : list Row) (e : exn) :
  load_whisky_data default_options (master_file w) = Some data ->
  filter (fun r => String.eqb (Attendee r) attendee_name) data <> [] ->
  calculate_attendee_correlations corr data attendee_name 50 = Raise e ->
  let w' := snd (generate_personal_whisky_report corr lower attendee_name
                   min_distillery_count w) in
  fst (generate_personal_whisky_report corr lower attendee_name
         min_distillery_count w) = None /\
  exists_file trend_chart w' = true /\
  exists_file distillery_chart w' = true /\
  exists_file region_chart w' = true.
Proof.
  intros Hload Hfocus Hcorr w'. subst w'.
  unfold generate_personal_whisky_report, report_body, mbind,
    call_load_whisky_data, lift, effect.
  change (mkOptions true false 0 false true 0) with default_options.
  rewrite Hload. cbv beta iota delta [ret].
  destruct (filter (fun r => String.eqb (Attendee r) attendee_name) data)
    as [|r focus]; [congruence|].
  rewrite Hcorr. cbv beta iota zeta delta [fst snd].
  split; [reflexivity|].
  repeat split.
Qed.
(** C9 on the workbook [club]: Ann has rows, so the three charts are
    drawn; no other attendee shares 50 whiskies with her, so sorting the
    empty correlation frame raises [KeyError]; the handler prints the error
    and returns [None], and the three chart files are still there.  Only
    the path that ends with the report written removes them. *)
Theorem charts_left_behind_on_failure (corr : list Q -> list Q -> option Q)
    (lower : string -> string) :
  generate_personal_whisky_report corr lower "Ann" 5
    (mkWorld (Some Examples.club) [] [])
  = (None,
     mkWorld (Some Examples.club)
       [(region_chart, Image); (distillery_chart, Image);
        (trend_chart, Image)]
       ["Error generating report: 'Correlation'"%string]).
Proof. vm_compute. reflexivity. Qed.
End ReportFacts.


(** ** The transforms of the loader, one by one *)

Module LoaderTransforms.
Import Frame FrameFacts Data_Loading Notions LoaderFacts.

Lemma filter_filter (A : Type) (p q : A -> bool) (l : list A) :
  filter q (filter p l) = filter (fun x => p x && q x) l.
Proof.
  induction l as [|a l IH]; simpl; [reflexivity|].
  destruct (p a); simpl; [destruct (q a)|]; rewrite IH; reflexivity.
Qed.

Lemma filter_all (A : Type) (l : list A) : filter (fun _ => true) l = l.
Proof. induction l as [|a l IH]; simpl; [|rewrite IH]; reflexivity. Qed.

Lemma step_filter (b : bool) (q : Row -> bool) (data : list Row) :
  step b (filter q) data = filter (fun r => if b then q r else true) data.
Proof. destruct b; simpl; [reflexivity | symmetry; apply filter_all]. Qed.

Lemma filtered_as_filter (o : Options) (g : bool) (data : list Row) :
  exists keep, filtered o g data = filter keep data.
Proof.
  unfold filtered, drop_guests, drop_USA.
  rewrite (step_filter (remove_guests o && g)).
  rewrite (step_filter (remove_USwhiskies o)). rewrite filter_filter.
  destruct (Qltb 0 (remove_thresh o)); simpl.
  - unfold drop_outliers. rewrite !filter_filter. eexists. reflexivity.
  - eexists. reflexivity.
Qed.

Lemma clean_rows (o : Options) (g : bool) (data : list Row) :
  exists d, finish o (step (pointscale o) (map (rescale (remove_thresh o)))
                           (filtered o g data))
            = map (row_transform o) d /\
            exists keep, d = filter keep (filtered o g data).
Proof.
  unfold finish.
  set (f1 := if pointscale o then rescale (remove_thresh o)
             else fun r0 : Row => r0).
  assert (E1 : step (pointscale o) (map (rescale (remove_thresh o)))
                    (filtered o g data) = map f1 (filtered o g data)).
  { unfold step, f1. destruct (pointscale o); [reflexivity|].
    symmetry. apply map_id. }
  rewrite E1.
  assert (E2 : exists keep,
             step (Z.ltb 0 (min_whiskies_per_region o))
                  (keep_valid_regions (min_whiskies_per_region o))
                  (map f1 (filtered o g data))
             = map f1 (filter keep (filtered o g data))).
  { unfold step. destruct (Z.ltb 0 (min_whiskies_per_region o)).
    - unfold keep_valid_regions. eexists.
      apply filter_map_comm. intros a. reflexivity.
    - exists (fun _ => true). rewrite filter_all. reflexivity. }
  destruct E2 as [keep E2]. rewrite E2.
  exists (filter keep (filtered o g data)). split; [|exists keep; reflexivity].
  unfold step, row_transform. fold f1.
  destruct (fill_missing_age o); [rewrite map_map|]; reflexivity.
Qed.

(** X1. The cleaning transforms only drop rows: the returned table is the
    joined frame with some rows left out, in the same order, each remaining
    row changed by nothing but the rescaling and the age fill. *)
Theorem cleaning_only_drops_rows (o : Options) (wb : Workbook) :
  exists keep,
    load_whisky_data o (Some wb)
    = Some (map (row_transform o) (filter keep (joined_frame wb))) /\
    (List.length (map (row_transform o) (filter keep (joined_frame wb)))
     <= List.length (joined_frame wb))%nat.
Proof.
  simpl. rewrite clean_stages.
  destruct (clean_rows o (guest_column wb) (joined_frame wb))
    as [d [E [k1 Hd]]].
  destruct (filtered_as_filter o (guest_column wb) (joined_frame wb))
    as [k0 Hf].
  rewrite E, Hd, Hf, filter_filter.
  eexists. split; [reflexivity|].
  rewrite length_map. apply filter_length_le.
Qed.

Lemma clean_origin (o : Options) (g : bool) (data : list Row) (r : Row) :
  In r (clean o g data) ->
  exists r0, In r0 (filtered o g data) /\ r = row_transform o r0.
Proof.
  rewrite clean_stages.
  destruct (clean_rows o g data) as [d [E [keep Hd]]].
  rewrite E, Hd. intros H. apply in_map_iff in H.
  destruct H as [r0 [<- H]]. apply filter_In in H.
  exists r0. split; [apply H | reflexivity].
Qed.

Lemma row_transform_score_columns (o : Options) (r : Row) :
  Whisky_ID (row_transform o r) = Whisky_ID r /\
  Attendee (row_transform o r) = Attendee r /\
  Guest (row_transform o r) = Guest r /\
  Whisky_Region (row_transform o r) = Whisky_Region r.
Proof.
  unfold row_transform.
  destruct (fill_missing_age o), (pointscale o); repeat split.
Qed.

Lemma filtered_guests (o : Options) (g : bool) (data : list Row) (r : Row) :
  remove_guests o = true -> g = true ->
  In r (filtered o g data) -> Guest r <> 1%Z.
Proof.
  intros Hg -> H. unfold filtered in H. rewrite Hg in H. simpl andb in H.
  assert (Hin : In r (drop_guests data)).
  { unfold step in H.
    destruct (Qltb 0 (remove_thresh o));
      [unfold drop_outliers in H; apply filter_In in H; destruct H as [H _];
       apply filter_In in H; destruct H as [H _]|];
      (destruct (remove_USwhiskies o);
         [unfold drop_USA in H; apply filter_In in H; destruct H as [H _]|]);
      exact H. }
  unfold drop_guests in Hin. apply filter_In in Hin.
  destruct Hin as [_ Hin]. apply negb_true_iff, Z.eqb_neq in Hin. exact Hin.
Qed.

Lemma filtered_USA (o : Options) (g : bool) (data : list Row) (r : Row) :
  remove_USwhiskies o = true ->
  In r (filtered o g data) -> Whisky_Region r <> Some "USA"%string.
Proof.
  intros Hus H. unfold filtered in H. rewrite Hus in H.
  assert (Hin : In r (drop_USA (step (remove_guests o && g) drop_guests data))).
  { unfold step at 1 2 in H.
    destruct (Qltb 0 (remove_thresh o));
      [unfold drop_outliers in H; apply filter_In in H; destruct H as [H _];
       apply filter_In in H; destruct H as [H _]|]; exact H. }
  unfold drop_USA in Hin. apply filter_In in Hin. destruct Hin as [_ Hin].
  apply negb_true_iff in Hin. intros C. rewrite C in Hin. simpl in Hin.
  discriminate.
Qed.

(** X2. With guest removal requested and a ['Guest'] column in the score
    sheet, no returned row has the guest flag 1, whatever the other
    options. *)
Theorem no_guest_rows (o : Options) (wb : Workbook) (data : list Row)
    (Hguests : remove_guests o = true)
    (Hcolumn : guest_column wb = true)
    (Hload : load_whisky_data o (Some wb) = Some data) :
  Forall (fun r => Guest r <> 1%Z) data.
Proof.
  simpl in Hload. injection Hload as <-.
  apply Forall_forall. intros r Hr. apply clean_origin in Hr.
  destruct Hr as [r0 [Hr0 ->]].
  destruct (row_transform_score_columns o r0) as (_ & _ & -> & _).
  eapply filtered_guests; eassumption.
Qed.

Lemma no_guest_rows_witness :
  Forall (fun r => Guest r <> 1%Z) Examples.club_data.
Proof.
  exact (@no_guest_rows default_options Examples.club Examples.club_data
           eq_refl eq_refl eq_refl).
Defined.

(** X3. With the region exclusion requested, no returned row is of region
    ['USA'], whatever the other options. *)
Theorem no_USA_rows (o : Options) (wb : Workbook) (data : list Row)
    (Hus : remove_USwhiskies o = true)
    (Hload : load_whisky_data o (Some wb) = Some data) :
  Forall (fun r => Whisky_Region r <> Some "USA"%string) data.
Proof.
  simpl in Hload. injection Hload as <-.
  apply Forall_forall. intros r Hr. apply clean_origin in Hr.
  destruct Hr as [r0 [Hr0 ->]].
  destruct (row_transform_score_columns o r0) as (_ & _ & _ & ->).
  eapply filtered_USA; eassumption.
Qed.

Lemma no_USA_rows_witness :
  exists data,
    load_whisky_data (mkOptions true true 0 false true 0)
                     (Some Examples.club) = Some data /\
    Forall (fun r => Whisky_Region r <> Some "USA"%string) data.
Proof.
  eexists. split; [reflexivity|].
  exact (@no_USA_rows (mkOptions true true 0 false true 0) Examples.club _
           eq_refl eq_refl).
Defined.


(** *** Outlier removal *)

Lemma avg_scores_In (k : Z) (v : Q) (data : list Row) :
  In (k, v) (avg_scores data) <->
  In k (map Whisky_ID data) /\ v = mean (scores_of k data).
Proof.
  unfold avg_scores. rewrite in_map_iff. split.
  - intros [k' [E Hk']]. injection E as <- <-.
    apply (proj1 (sort_In _ _ _)) in Hk'.
    apply (proj1 (unique_In Z.eqb Z.eqb_eq _ _)) in Hk'.
    split; [exact Hk' | reflexivity].
  - intros [Hk ->]. exists k. split; [reflexivity|].
    apply (proj2 (sort_In _ _ _)).
    apply (proj2 (unique_In Z.eqb Z.eqb_eq _ _)). exact Hk.
Qed.

Lemma low_score_whiskies_In (k : Z) (T : Q) (data : list Row) :
  In k (low_score_whiskies T data) <->
  In k (map Whisky_ID data) /\ (mean (scores_of k data) < T)%Q.
Proof.
  unfold low_score_whiskies. rewrite in_map_iff. split.
  - intros [[k' v] [E H]]. simpl in E. subst k'.
    apply filter_In in H. destruct H as [H Hlt]. simpl in Hlt.
    apply avg_scores_In in H. destruct H as [Hk ->].
    split; [exact Hk | apply Qltb_lt, Hlt].
  - intros [Hk Hlt]. exists (k, mean (scores_of k data)).
    split; [reflexivity|]. apply filter_In. split.
    + apply avg_scores_In. split; [exact Hk | reflexivity].
    + simpl. apply Qltb_lt, Hlt.
Qed.

(** X4. Outlier removal keeps a row exactly when the mean score of its whisky
    (over the table as it is before the removal) and the row's own score
    are both at least the threshold: a row scored above the threshold goes
    all the same when its whisky's mean is below it. *)
Theorem drop_outliers_keeps (T : Q) (data : list Row) (r : Row) :
  In r (drop_outliers T data) <->
  In r data /\
  (T <= mean (scores_of (Whisky_ID r) data))%Q /\
  (T <= Whisky_Score r)%Q.
Proof.
  unfold drop_outliers. rewrite !filter_In, Qle_bool_iff, negb_true_iff.
  split.
  - intros [[Hr Hlow] Hs]. repeat split; [exact Hr | | exact Hs].
    apply Qnot_lt_le. intros C.
    apply not_true_iff_false in Hlow. apply Hlow.
    apply (isin_In Z.eqb Z.eqb_eq), low_score_whiskies_In.
    split; [apply in_map, Hr | exact C].
  - intros (Hr & Hm & Hs). repeat split; [exact Hr | | exact Hs].
    apply not_true_iff_false. intros C.
    apply (isin_In Z.eqb Z.eqb_eq), low_score_whiskies_In in C.
    destruct C as [_ C]. apply (Qlt_not_le _ _ C Hm).
Qed.

(** *** Regions with few whiskies *)

Lemma region_counts_In (g : string) (n : Z) (data : list Row) :
  In (g, n) (region_counts data) <->
  (exists r, In r data /\ Whisky_Region r = Some g) /\
  n = region_size g data.
Proof.
  unfold region_counts, regions_of. rewrite in_map_iff. split.
  - intros [g' [E Hg']]. injection E as <- <-.
    apply (proj1 (sort_In _ _ _)) in Hg'.
    apply (proj1 (unique_In String.eqb String.eqb_eq _ _)) in Hg'.
    apply in_flat_map in Hg'. destruct Hg' as [r [Hr Hg']].
    split; [|reflexivity]. exists r. split; [exact Hr|].
    destruct (Whisky_Region r) as [x|]; simpl in Hg'; [|contradiction].
    destruct Hg' as [<-|[]]. reflexivity.
  - intros [[r [Hr Hg]] ->]. exists g. split; [reflexivity|].
    apply (proj2 (sort_In _ _ _)).
    apply (proj2 (unique_In String.eqb String.eqb_eq _ _)).
    apply in_flat_map. exists r. split; [exact Hr|].
    rewrite Hg. left. reflexivity.
Qed.

Lemma valid_regions_In (g : string) (m : Z) (data : list Row) :
  In g (valid_regions m data) <->
  (exists r, In r data /\ Whisky_Region r = Some g) /\
  (m <= region_size g data)%Z.
Proof.
  unfold valid_regions. rewrite in_map_iff. split.
  - intros [[g' n] [E H]]. simpl in E. subst g'.
    apply filter_In in H. destruct H as [H Hle]. simpl in Hle.
    apply region_counts_In in H. destruct H as [Hr ->].
    split; [exact Hr | apply Z.leb_le, Hle].
  - intros [Hr Hle]. exists (g, region_size g data).
    split; [reflexivity|]. apply filter_In. split.
    + apply region_counts_In. split; [exact Hr | reflexivity].
    + simpl. apply Z.leb_le, Hle.
Qed.

(** X5. The region filter keeps a row exactly when the row has a region and
    that region has at least the minimum number of distinct whiskies in
    the table being filtered; a row without a region is dropped. *)
Theorem keep_valid_regions_keeps (m : Z) (data : list Row) (r : Row) :
  In r (keep_valid_regions m data) <->
  In r data /\
  exists g, Whisky_Region r = Some g /\ (m <= region_size g data)%Z.
Proof.
  unfold keep_valid_regions. rewrite filter_In. split.
  - intros [Hr H]. split; [exact Hr|].
    destruct (Whisky_Region r) as [g|] eqn:Eg; [|discriminate].
    exists g. split; [reflexivity|].
    apply (isin_In String.eqb String.eqb_eq), valid_regions_In in H.
    apply H.
  - intros [Hr [g [Eg Hle]]]. split; [exact Hr|]. rewrite Eg.
    apply (isin_In String.eqb String.eqb_eq), valid_regions_In.
    split; [|exact Hle]. exists r. split; assumption.
Qed.

(** *** The join without the uniqueness of identifiers *)

Lemma merge_row_nonempty (whiskies_df : list Whisky) (s : ScoreRow) :
  (1 <= List.length (merge_row whiskies_df s))%nat.
Proof.
  unfold merge_row. destruct (matches s whiskies_df) as [|w ws]; simpl; lia.
Qed.

Lemma merge_left_length (scores_df : list ScoreRow)
    (whiskies_df : list Whisky) :
  (List.length scores_df <= List.length (merge_left scores_df whiskies_df))%nat.
Proof.
  unfold merge_left. induction scores_df as [|s l IH]; simpl; [lia|].
  rewrite length_app. pose proof (merge_row_nonempty whiskies_df s). lia.
Qed.

(** X6. Whatever the two sheets hold, the join loses no score row and invents
    none: the joined frame has at least as many rows as the score sheet,
    every score row is the score part of a joined row, and every joined
    row has the score part of a score row.  A score row whose whisky is
    not in the ['Whiskies'] sheet is joined once, all its metadata null. *)
Theorem left_join_loses_no_score (wb : Workbook) :
  (List.length (Scores wb) <= List.length (joined_frame wb))%nat /\
  (forall s, In s (Scores wb) ->
             exists r, In r (joined_frame wb) /\ score_part r = s) /\
  (forall r, In r (joined_frame wb) -> In (score_part r) (Scores wb)) /\
  (forall s, In s (Scores wb) -> unknown_whisky wb s ->
             In (unmatched s) (joined_frame wb) /\
             forall r, In r (joined_frame wb) -> score_part r = s ->
                       r = unmatched s).
Proof.
  unfold joined_frame.
  set (whiskies_df := prepare_whiskies [] (Whiskies wb)).
  split; [apply merge_left_length|]. split; [|split].
  - intros s Hs.
    pose proof (merge_row_nonempty whiskies_df s) as Hlen.
    pose proof (merge_row_score_part whiskies_df s) as Hpart.
    destruct (merge_row whiskies_df s) as [|r rs] eqn:E; simpl in Hlen; [lia|].
    exists r. split.
    + unfold merge_left. apply in_flat_map. exists s.
      split; [exact Hs | rewrite E; left; reflexivity].
    + inversion Hpart; assumption.
  - intros r Hr. unfold merge_left in Hr. apply in_flat_map in Hr.
    destruct Hr as [s [Hs Hr]].
    pose proof (merge_row_score_part whiskies_df s) as Hpart.
    rewrite Forall_forall in Hpart. rewrite (Hpart _ Hr). exact Hs.
  - intros s Hs Hunknown.
    assert (Hnone : matches s whiskies_df = []).
    { unfold matches.
      destruct (filter _ whiskies_df) as [|w ws] eqn:E; [reflexivity|].
      exfalso. apply Hunknown.
      assert (Hw : In w (filter (fun w0 => Z.eqb (wh_Whisky_ID (w_row w0))
                                             (sc_Whisky_ID s)) whiskies_df))
        by (rewrite E; left; reflexivity).
      apply filter_In in Hw. destruct Hw as [Hw Hid].
      apply Z.eqb_eq in Hid. rewrite <- Hid.
      rewrite <- (prepare_whiskies_ids [] (Whiskies wb)), map_map.
      apply (in_map (fun x => wh_Whisky_ID (w_row x))), Hw. }
    assert (Hrow : merge_row whiskies_df s = [unmatched s])
      by (unfold merge_row; rewrite Hnone; reflexivity).
    split.
    + unfold merge_left. apply in_flat_map. exists s.
      split; [exact Hs | rewrite Hrow; left; reflexivity].
    + intros r Hr Hpart. unfold merge_left in Hr. apply in_flat_map in Hr.
      destruct Hr as [s' [Hs' Hr]].
      pose proof (merge_row_score_part whiskies_df s') as Hp.
      rewrite Forall_forall in Hp. specialize (Hp _ Hr).
      rewrite Hpart in Hp. subst s'. rewrite Hrow in Hr.
      destruct Hr as [<-|[]]. reflexivity.
Qed.

(** *** Tasting positions *)

Lemma prepare_whiskies_app (earlier a b : list WhiskyRow) (w : WhiskyRow) :
  exists pa,
    List.length pa = List.length a /\
    prepare_whiskies earlier (a ++ w :: b)
    = pa ++ mkWhisky w (whisky_OB w) (tasting_position (earlier ++ a) w b)
         :: prepare_whiskies (earlier ++ a ++ [w]) b.
Proof.
  revert earlier. induction a as [|x a IH]; intros earlier; simpl.
  - exists []. rewrite app_nil_r. split; reflexivity.
  - destruct (IH (earlier ++ [x])) as [pa [Hlen E]].
    exists (mkWhisky x (whisky_OB x)
                     (tasting_position earlier x (a ++ w :: b)) :: pa).
    split; [simpl; rewrite Hlen; reflexivity|].
    rewrite E. rewrite <- !app_assoc. reflexivity.
Qed.

Lemma count_le (A : Type) (p q : A -> bool) (l : list A) :
  (forall x, p x = true -> q x = true) ->
  (List.length (filter p l) <= List.length (filter q l))%nat.
Proof.
  intros H. induction l as [|x l IH]; simpl; [lia|].
  destruct (p x) eqn:Ep.
  - rewrite (H x Ep). simpl. lia.
  - destruct (q x); simpl; lia.
Qed.

Section Ranks.
Variables wi wj : WhiskyRow.
Hypothesis Hmeeting : wh_Meeting_Number wi = wh_Meeting_Number wj.

Let same (w' : WhiskyRow) : bool :=
  Z.eqb (wh_Meeting_Number w') (wh_Meeting_Number wi).
Let upto (w w' : WhiskyRow) : bool :=
  same w' && Z.leb (wh_Whisky_ID w') (wh_Whisky_ID w).
Let below (w w' : WhiskyRow) : bool :=
  same w' && Z.ltb (wh_Whisky_ID w') (wh_Whisky_ID w).

Lemma tasting_position_i (earlier later : list WhiskyRow) :
  tasting_position earlier wi later
  = (1 + Z.of_nat (List.length (filter (upto wi) earlier))
       + Z.of_nat (List.length (filter (below wi) later)))%Z.
Proof. reflexivity. Qed.

Lemma tasting_position_j (earlier later : list WhiskyRow) :
  tasting_position earlier wj later
  = (1 + Z.of_nat (List.length (filter (upto wj) earlier))
       + Z.of_nat (List.length (filter (below wj) later)))%Z.
Proof.
  unfold tasting_position, upto, below, same. rewrite Hmeeting. reflexivity.
Qed.

Lemma positions_in_order (a b c : list WhiskyRow) :
  let pi := tasting_position a wi (b ++ wj :: c) in
  let pj := tasting_position (a ++ wi :: b) wj c in
  ((wh_Whisky_ID wi <= wh_Whisky_ID wj)%Z -> (pi < pj)%Z) /\
  ((wh_Whisky_ID wj < wh_Whisky_ID wi)%Z -> (pj < pi)%Z).
Proof.
  intros pi pj. subst pi pj.
  rewrite tasting_position_i, tasting_position_j.
  rewrite !filter_app. simpl filter. rewrite !length_app.
  assert (Hsi : same wi = true) by (unfold same; apply Z.eqb_refl).
  assert (Hsj : same wj = true)
    by (unfold same; rewrite Hmeeting; apply Z.eqb_refl).
  split; intros Hid.
  - assert (E1 : below wi wj = false).
    { unfold below. rewrite Hsj. simpl. apply Z.ltb_ge. exact Hid. }
    assert (E2 : upto wj wi = true).
    { unfold upto. rewrite Hsi. simpl. apply Z.leb_le. exact Hid. }
    rewrite E1, E2. simpl List.length.
    pose proof (@count_le _ (upto wi) (upto wj) a) as Ha.
    pose proof (@count_le _ (below wi) (upto wj) b) as Hb.
    pose proof (@count_le _ (below wi) (below wj) c) as Hc.
    assert (Ha' : (List.length (filter (upto wi) a)
                   <= List.length (filter (upto wj) a))%nat).
    { apply Ha. unfold upto. intros x Hx. apply andb_true_iff in Hx.
      destruct Hx as [-> Hx]. simpl. apply Z.leb_le in Hx.
      apply Z.leb_le. lia. }
    assert (Hb' : (List.length (filter (below wi) b)
                   <= List.length (filter (upto wj) b))%nat).
    { apply Hb. unfold below, upto. intros x Hx. apply andb_true_iff in Hx.
      destruct Hx as [-> Hx]. simpl. apply Z.ltb_lt in Hx.
      apply Z.leb_le. lia. }
    assert (Hc' : (List.length (filter (below wi) c)
                   <= List.length (filter (below wj) c))%nat).
    { apply Hc. unfold below. intros x Hx. apply andb_true_iff in Hx.
      destruct Hx as [-> Hx]. simpl. apply Z.ltb_lt in Hx.
      apply Z.ltb_lt. lia. }
    lia.
  - assert (E1 : below wi wj = true).
    { unfold below. rewrite Hsj. simpl. apply Z.ltb_lt. exact Hid. }
    assert (E2 : upto wj wi = false).
    { unfold upto. rewrite Hsi. simpl. apply Z.leb_gt. exact Hid. }
    rewrite E1, E2. simpl List.length.
    pose proof (@count_le _ (upto wj) (upto wi) a) as Ha.
    pose proof (@count_le _ (upto wj) (below wi) b) as Hb.
    pose proof (@count_le _ (below wj) (below wi) c) as Hc.
    assert (Ha' : (List.length (filter (upto wj) a)
                   <= List.length (filter (upto wi) a))%nat).
    { apply Ha. unfold upto. intros x Hx. apply andb_true_iff in Hx.
      destruct Hx as [-> Hx]. simpl. apply Z.leb_le in Hx.
      apply Z.leb_le. lia. }
    assert (Hb' : (List.length (filter (upto wj) b)
                   <= List.length (filter (below wi) b))%nat).
    { apply Hb. unfold below, upto. intros x Hx. apply andb_true_iff in Hx.
      destruct Hx as [-> Hx]. simpl. apply Z.leb_le in Hx.
      apply Z.ltb_lt. lia. }
    assert (Hc' : (List.length (filter (below wj) c)
                   <= List.length (filter (below wi) c))%nat).
    { apply Hc. unfold below. intros x Hx. apply andb_true_iff in Hx.
      destruct Hx as [-> Hx]. simpl. apply Z.ltb_lt in Hx.
      apply Z.ltb_lt. lia. }
    lia.
Qed.
End Ranks.

Lemma tasting_position_bounds (earlier later : list WhiskyRow)
    (w : WhiskyRow) :
  (1 <= tasting_position earlier w later
     <= Z.of_nat (List.length (same_meeting w (earlier ++ w :: later))))%Z.
Proof.
  unfold tasting_position, same_meeting.
  rewrite filter_app, length_app. simpl filter. rewrite Z.eqb_refl.
  simpl List.length.
  pose proof (@count_le _
    (fun w' => Z.eqb (wh_Meeting_Number w') (wh_Meeting_Number w)
               && Z.leb (wh_Whisky_ID w') (wh_Whisky_ID w))
    (fun w' => Z.eqb (wh_Meeting_Number w') (wh_Meeting_Number w)) earlier)
    as He.
  pose proof (@count_le _
    (fun w' => Z.eqb (wh_Meeting_Number w') (wh_Meeting_Number w)
               && Z.ltb (wh_Whisky_ID w') (wh_Whisky_ID w))
    (fun w' => Z.eqb (wh_Meeting_Number w') (wh_Meeting_Number w)) later)
    as Hl.
  assert (He' := He (fun x Hx => proj1 (proj1 (andb_true_iff _ _) Hx))).
  assert (Hl' := Hl (fun x Hx => proj1 (proj1 (andb_true_iff _ _) Hx))).
  lia.
Qed.

(** X7. The tasting positions of two whiskies of one meeting, as the loader
    computes them for the sheet [a ++ wi :: b ++ wj :: c]: both lie between
    1 and the number of whiskies of the meeting, and they differ, the
    smaller identifier first and, for equal identifiers, the earlier row of
    the sheet first. *)
Theorem tasting_positions_rank (a b c : list WhiskyRow) (wi wj : WhiskyRow)
    (Hmeeting : wh_Meeting_Number wi = wh_Meeting_Number wj) :
  let sheet := a ++ wi :: b ++ wj :: c in
  exists pa pb pc pi pj,
    prepare_whiskies [] sheet
    = pa ++ mkWhisky wi (whisky_OB wi) pi
         :: pb ++ mkWhisky wj (whisky_OB wj) pj :: pc /\
    List.length pa = List.length a /\ List.length pb = List.length b /\
    (1 <= pi <= Z.of_nat (List.length (same_meeting wi sheet)))%Z /\
    (1 <= pj <= Z.of_nat (List.length (same_meeting wi sheet)))%Z /\
    ((wh_Whisky_ID wi <= wh_Whisky_ID wj)%Z -> (pi < pj)%Z) /\
    ((wh_Whisky_ID wj < wh_Whisky_ID wi)%Z -> (pj < pi)%Z).
Proof.
  intros sheet. subst sheet.
  destruct (prepare_whiskies_app [] a (b ++ wj :: c) wi) as [pa [Ha Ea]].
  destruct (prepare_whiskies_app ([] ++ a ++ [wi]) b c wj) as [pb [Hb Eb]].
  exists pa, pb,
         (prepare_whiskies (([] ++ a ++ [wi]) ++ b ++ [wj]) c),
         (tasting_position a wi (b ++ wj :: c)),
         (tasting_position (a ++ wi :: b) wj c).
  split.
  - rewrite Ea, Eb. simpl app. rewrite <- !app_assoc. reflexivity.
  - split; [exact Ha|]. split; [exact Hb|].
    split; [apply tasting_position_bounds|].
    split.
    + pose proof (tasting_position_bounds (a ++ wi :: b) c wj) as H.
      unfold same_meeting in *. rewrite <- Hmeeting in H.
      rewrite <- app_assoc in H. exact H.
    + apply positions_in_order. exact Hmeeting.
Qed.

Lemma tasting_positions_rank_witness :
  exists pa pb pc pi pj,
    prepare_whiskies [] [Examples.caol_ila; Examples.talisker]
    = pa ++ mkWhisky Examples.caol_ila (whisky_OB Examples.caol_ila) pi
         :: pb ++ mkWhisky Examples.talisker (whisky_OB Examples.talisker) pj
         :: pc /\
    (pj < pi)%Z.
Proof.
  destruct (@tasting_positions_rank [] [] [] Examples.caol_ila
              Examples.talisker eq_refl)
    as (pa & pb & pc & pi & pj & E & _ & _ & _ & _ & _ & H).
  exists pa, pb, pc, pi, pj. split; [exact E|]. apply H. reflexivity.
Defined.

(** *** The default load *)

Lemma filter_score_part (p : ScoreRow -> bool) (data : list Row) :
  map score_part (filter (fun r => p (score_part r)) data)
  = filter p (map score_part data).
Proof.
  induction data as [|r l IH]; simpl; [reflexivity|].
  destruct (p (score_part r)); simpl; rewrite IH; reflexivity.
Qed.

(** X23. The load the report uses (default options) on a workbook with a
    ['Guest'] column and unique whisky identifiers: the returned table
    holds, in sheet order, exactly the score rows whose guest flag is not
    1, one table row for each, and every row has an age and the flag
    telling whether it was filled in. *)
Theorem default_load_keeps_member_scores (wb : Workbook) (data : list Row)
    (Hguest : guest_column wb = true)
    (Hunique : NoDup (map wh_Whisky_ID (Whiskies wb)))
    (Hload : load_whisky_data default_options (Some wb) = Some data) :
  map score_part data
  = filter (fun s => negb (Z.eqb (sc_Guest s) 1)) (Scores wb) /\
  Forall (fun r => Whisky_Age_Corrected r <> None /\ Age_Missing r <> None)
         data.
Proof.
  simpl in Hload. injection Hload as <-. rewrite Hguest.
  assert (E : clean default_options true (joined_frame wb)
              = map fill_age (drop_guests (joined_frame wb)))
    by reflexivity.
  rewrite E. split.
  - rewrite map_map.
    rewrite (map_ext (fun r => score_part (fill_age r)) score_part)
      by reflexivity.
    unfold drop_guests.
    rewrite (filter_score_part (fun s => negb (Z.eqb (sc_Guest s) 1))).
    f_equal. unfold joined_frame. apply merge_left_score_part.
    rewrite <- (map_map w_row wh_Whisky_ID), prepare_whiskies_ids.
    exact Hunique.
  - apply Forall_map, Forall_forall. intros r _. simpl.
    split; discriminate.
Qed.

Lemma default_load_keeps_member_scores_witness :
  map score_part Examples.club_data
  = [ mkScoreRow 1 "Ann" 0 (8 # 1) 1; mkScoreRow 1 "Bob" 0 (13 # 2) 1;
      mkScoreRow 2 "Ann" 0 (7 # 1) 1; mkScoreRow 2 "Bob" 0 (9 # 1) 1 ].
Proof.
  refine (proj1 (@default_load_keeps_member_scores Examples.club
                   Examples.club_data eq_refl _ eq_refl)).
  simpl. repeat constructor; simpl; intuition discriminate.
Defined.

(** *** Rescaling *)

(** X24. Rescaling never reverses the order of two scores: of two rows,
    the one with the lower (or equal) score before rescaling has the lower
    (or equal) score after. *)
Theorem rescale_keeps_order (T : Q) (r1 r2 : Row)
    (Hle : (Whisky_Score r1 <= Whisky_Score r2)%Q) :
  (Whisky_Score (rescale T r1) <= Whisky_Score (rescale T r2))%Q.
Proof.
  simpl. apply Qmult_le_r; [reflexivity|].
  apply (Qplus_le_l _ _ (- T)) in Hle. exact Hle.
Qed.

Lemma rescale_keeps_order_witness :
  (Whisky_Score (rescale (6 # 1) (Examples.scored 1 "Ardbeg" "Islay" (7 # 1)))
   <= Whisky_Score (rescale (6 # 1)
                      (Examples.scored 2 "Ardbeg" "Islay" (9 # 1))))%Q.
Proof.
  apply rescale_keeps_order. simpl. discriminate.
Defined.
End LoaderTransforms.


(** ** The views of the report, one by one *)

Module ReportViews.
Import Frame FrameFacts Data_Loading whisky_report_generator Notions.
Import LoaderFacts ReportFacts LoaderTransforms.

(** *** Common whiskies *)

Lemma common_whiskies_nil_r (t : list (Z * Q)) :
  List.length (common_whiskies t []) = 0%nat.
Proof. induction t as [|x t IH]; simpl; [reflexivity | exact IH]. Qed.

Lemma common_whiskies_cons_r (t o : list (Z * Q)) (x : Z * Q) :
  List.length (common_whiskies t (x :: o))
  = (List.length (filter (fun a => Z.eqb (fst x) (fst a)) t)
     + List.length (common_whiskies t o))%nat.
Proof.
  induction t as [|a t IH]; simpl; [reflexivity|].
  rewrite !length_app, IH, !length_map.
  destruct (Z.eqb (fst x) (fst a)); simpl; lia.
Qed.

Lemma common_whiskies_sym (t o : list (Z * Q)) :
  List.length (common_whiskies t o) = List.length (common_whiskies o t).
Proof.
  induction t as [|x t IH]; simpl.
  - symmetry. apply common_whiskies_nil_r.
  - rewrite length_app, length_map, common_whiskies_cons_r, IH.
    f_equal. f_equal. apply filter_ext. intros a. apply Z.eqb_sym.
Qed.

(** X8. The number of common whiskies of two attendees does not depend on
    which of the two is the target; so when [b] qualifies for the
    correlation table of [a], an attendee of the table, [a] qualifies for
    the table of [b]. *)
Theorem common_whiskies_symmetric (data : list Row) (a b : string) (min : Z) :
  List.length (common data a b) = List.length (common data b a) /\
  (In a (map Attendee data) ->
   qualifies data a min b -> qualifies data b min a).
Proof.
  assert (E : List.length (common data a b) = List.length (common data b a))
    by apply common_whiskies_sym.
  split; [exact E|]. unfold qualifies. rewrite E.
  intros Ha (Hne & _ & Hmin). repeat split; auto.
Qed.

Lemma common_whiskies_symmetric_witness :
  qualifies Examples.club_data "Bob" 2 "Ann".
Proof.
  apply (proj2 (common_whiskies_symmetric Examples.club_data "Ann" "Bob" 2)).
  - simpl. left. reflexivity.
  - unfold qualifies. split; [discriminate|]. split.
    + simpl. right. left. reflexivity.
    + vm_compute. discriminate.
Defined.


(** *** When there are no differences to report *)

Lemma first_score_found (target_scores : list (Z * Q)) (whisky_id : Z) :
  In whisky_id (map fst target_scores) ->
  exists target_score, first_score target_scores whisky_id = Ok target_score.
Proof.
  intros H. apply in_map_iff in H. destruct H as [t [E Ht]].
  unfold first_score.
  destruct (filter (fun t0 => Z.eqb (fst t0) whisky_id) target_scores)
    as [|t0 l] eqn:F.
  - assert (Hin : In t (filter (fun t0 => Z.eqb (fst t0) whisky_id)
                               target_scores)).
    { apply filter_In. split; [exact Ht|]. rewrite E. apply Z.eqb_refl. }
    rewrite F in Hin. destruct Hin.
  - exists (snd t0). reflexivity.
Qed.

Lemma diff_to_zero (t : Q) (r : Row) :
  (diff_to t r <= 0)%Q <-> (Whisky_Score r == t)%Q.
Proof.
  unfold diff_to. rewrite Qabs_Qle_condition. split.
  - intros [H1 H2]. apply Qle_antisym.
    + apply (Qplus_le_r _ _ (- Whisky_Score r)).
      setoid_replace (- Whisky_Score r + Whisky_Score r)%Q with 0%Q by ring.
      setoid_replace (- Whisky_Score r + t)%Q
        with (t - Whisky_Score r)%Q by ring.
      exact H1.
    + apply (Qplus_le_r _ _ (- Whisky_Score r)).
      setoid_replace (- Whisky_Score r + Whisky_Score r)%Q with 0%Q by ring.
      setoid_replace (- Whisky_Score r + t)%Q
        with (t - Whisky_Score r)%Q by ring.
      exact H2.
  - intros E. rewrite E.
    setoid_replace (t - t)%Q with 0%Q by ring. split; discriminate.
Qed.

Lemma difference_rows_result (data : list Row) (attendee_name : string)
    (whisky_id : Z) (target_score : Q) :
  first_score (scores_of_attendee data attendee_name) whisky_id
    = Ok target_score ->
  exists rows,
    difference_rows data attendee_name
      (scores_of_attendee data attendee_name) whisky_id = Ok rows /\
    (rows = [] <->
     Forall (fun r => (Whisky_Score r == target_score)%Q)
            (others_on data attendee_name whisky_id)).
Proof.
  intros Ef. unfold difference_rows. rewrite Ef. simpl bind.
  pose proof (largest_difference_selected target_score
                (others_on data attendee_name whisky_id)) as Hsel.
  destruct (largest_difference target_score
              (others_on data attendee_name whisky_id)) as [max_diff [row|]];
    unfold selected in Hsel; simpl in Hsel.
  - destruct Hsel as (Hd & Hpos & earlier & later & Hsplit & _).
    apply Qltb_lt in Hpos. rewrite Hpos. eexists. split; [reflexivity|].
    split; [discriminate|]. intros Hall. exfalso.
    rewrite Forall_forall in Hall.
    assert (Hin : In row (others_on data attendee_name whisky_id))
      by (rewrite Hsplit; apply in_or_app; right; left; reflexivity).
    apply Hall, diff_to_zero in Hin. apply Qltb_lt in Hpos.
    rewrite Hd in Hpos. apply (Qlt_not_le _ _ Hpos Hin).
  - destruct Hsel as [_ Hall]. exists []. split; [reflexivity|].
    split; [|reflexivity]. intros _. revert Hall. apply Forall_impl.
    intros r. apply diff_to_zero.
Qed.

Lemma for_each_total (T U : Type) (body : T -> result (list U)) (l : list T) :
  (forall x, In x l -> exists ys, body x = Ok ys) ->
  exists rows, for_each body l = Ok rows.
Proof.
  induction l as [|x l IH]; intros H; simpl.
  - exists []. reflexivity.
  - destruct (H x (or_introl eq_refl)) as [ys ->].
    destruct IH as [rest ->]; [intros y Hy; apply H; right; exact Hy|].
    simpl. eexists. reflexivity.
Qed.

Lemma for_each_incl (T U : Type) (body : T -> result (list U)) (l : list T)
    (rows ys : list U) (x : T) :
  for_each body l = Ok rows -> In x l -> body x = Ok ys ->
  forall u, In u ys -> In u rows.
Proof.
  revert rows. induction l as [|a l IH]; simpl; intros rows H Hx Hb u Hu.
  - destruct Hx.
  - destruct (body a) as [ya|e] eqn:Ea; simpl in H; [|discriminate].
    destruct (for_each body l) as [rest|e] eqn:El; simpl in H; [|discriminate].
    injection H as <-. apply in_or_app. destruct Hx as [->|Hx].
    + left. rewrite Hb in Ea. injection Ea as <-. exact Hu.
    + right. eapply IH; eauto.
Qed.

Lemma differences_outcome (data : list Row) (attendee_name : string) :
  match find_largest_score_differences data attendee_name with
  | Ok rows => rows <> [] /\ disagreement data attendee_name
  | Raise e =>
      e = KeyError "Absolute_Difference" /\ ~ disagreement data attendee_name
  end.
Proof.
  unfold find_largest_score_differences.
  set (ts := scores_of_attendee data attendee_name).
  destruct (@for_each_total _ _ (difference_rows data attendee_name ts)
              (map fst ts)) as [records E].
  { intros x Hx. destruct (first_score_found ts x Hx) as [t Ht].
    destruct (difference_rows_result data attendee_name x Ht) as [rows [Hr _]].
    exists rows. exact Hr. }
  rewrite E. simpl bind. destruct records as [|d records]; simpl.
  - split; [reflexivity|].
    intros (x & t & ro & Hx & Ht & Hro & Hne).
    destruct (difference_rows_result data attendee_name x Ht)
      as [rows [Hr Hiff]].
    destruct rows as [|d rows].
    + destruct Hiff as [Hall _]. specialize (Hall eq_refl).
      rewrite Forall_forall in Hall. apply Hne, Hall, Hro.
    + assert (Hin : In d [])
        by (eapply for_each_incl;
            [exact E | exact Hx | exact Hr | left; reflexivity]).
      destruct Hin.
  - split.
    + intros C. apply (f_equal (@List.length _)) in C.
      unfold sort_values_desc in C. rewrite sort_length in C. discriminate.
    + assert (Hd0 : In d (d :: records)) by (left; reflexivity).
      destruct (for_each_In _ _ _ E Hd0) as [x [ys [Hx [Hb Hd]]]].
      apply difference_rows_largest in Hb. destruct Hb as [_ Hb].
      rewrite Forall_forall in Hb. destruct (Hb d Hd) as [Hid Hl].
      destruct Hl as (Hf & Hpos & earlier & row & later & Hsplit & _ & _
                      & Habs & _).
      exists x, (Target_Score d), row. subst x.
      split; [exact Hx|]. split; [exact Hf|]. split.
      * rewrite Hsplit. apply in_or_app. right. left. reflexivity.
      * intros C. apply (diff_to_zero (Target_Score d) row) in C.
        unfold diff_to in C. rewrite <- Habs in C.
        apply (Qlt_not_le _ _ Hpos C).
Qed.

(** X10. [find_largest_score_differences] never fails on a lookup.  It returns
    a frame, which then has at least one row, exactly when some other
    attendee scored one of the target's whiskies differently from the
    target; when nobody did (or nobody else scored those whiskies, or the
    target has no rows) it raises [KeyError] from sorting the empty
    frame. *)
Theorem differences_raise_iff (data : list Row) (attendee_name : string) :
  match find_largest_score_differences data attendee_name with
  | Ok rows => rows <> [] /\ disagreement data attendee_name
  | Raise e =>
      e = KeyError "Absolute_Difference" /\ ~ disagreement data attendee_name
  end.
Proof. apply differences_outcome. Qed.

(** *** The outcome of a report *)

(** The outcome of [generate_personal_whisky_report], path by path. *)
Lemma generate_cases (corr : list Q -> list Q -> option Q)
    (lower : string -> string)
    (attendee_name : string) (min_distillery_count : Z) (w : World) :
  generate_personal_whisky_report corr lower attendee_name min_distillery_count w
  = match load_whisky_data default_options (master_file w) with
    | None =>
        (None,
         print "Error generating report: Failed to load whisky data"
           (print "Error: File 'Master Data File.xlsx' not found." w))
    | Some data =>
        match filter (fun r => String.eqb (Attendee r) attendee_name) data with
        | [] =>
            (None,
             print ("Error generating report: No data found for attendee: "
                      ++ attendee_name) w)
        | r :: focus =>
            match calculate_attendee_correlations corr data attendee_name 50
            with
            | Raise e =>
                (None,
                 print ("Error generating report: " ++ str_exn e)
                       (with_charts w))
            | Ok correlations_df =>
                match find_largest_score_differences data attendee_name with
                | Raise e =>
                    (None,
                     print ("Error generating report: " ++ str_exn e)
                           (with_charts w))
                | Ok differences_df =>
                    (Some (output_filename lower attendee_name),
                     snd (remove_charts charts
                            (write_file (output_filename lower attendee_name)
                               (Pdf (document_of attendee_name
                                       min_distillery_count (r :: focus)
                                       correlations_df differences_df))
                               (with_charts w))))
                end
            end
        end
    end.
Proof.
  unfold generate_personal_whisky_report, report_body, mbind,
    call_load_whisky_data, lift, effect.
  change (mkOptions true false 0 false true 0) with default_options.
  destruct (load_whisky_data default_options (master_file w)) as [data|];
    [|reflexivity].
  cbv beta iota delta [ret].
  destruct (filter (fun r => String.eqb (Attendee r) attendee_name) data)
    as [|r focus]; [reflexivity|].
  destruct (calculate_attendee_correlations corr data attendee_name 50)
    as [correlations_df|e]; [|reflexivity].
  destruct (find_largest_score_differences data attendee_name)
    as [differences_df|e]; [|reflexivity].
  cbv beta iota zeta.
  fold (with_charts w). fold charts.
  fold (document_of attendee_name min_distillery_count (r :: focus)
          correlations_df differences_df).
  pose proof (remove_charts_removes charts
                (write_file (output_filename lower attendee_name)
                   (Pdf (document_of attendee_name min_distillery_count
                           (r :: focus) correlations_df differences_df))
                   (with_charts w))) as [Hok _].
  destruct (remove_charts charts _) as [[[]|e] w1]; simpl in Hok;
    [reflexivity | discriminate].
Qed.





(** X13. When the workbook is missing, the loader reports the missing file, the
    report function reports the failed load and returns [None], and no file
    is written. *)
Theorem missing_workbook_fails (corr : list Q -> list Q -> option Q)
    (lower : string -> string)
    (attendee_name : string) (min_distillery_count : Z) (w : World)
    (Hmissing : master_file w = None) :
  generate_personal_whisky_report corr lower attendee_name min_distillery_count w
  = (None,
     mkWorld None (files w)
       (stdout w
          ++ ["Error: File 'Master Data File.xlsx' not found."%string;
              "Error generating report: Failed to load whisky data"%string])).
Proof.
  rewrite generate_cases, Hmissing. simpl. unfold print. simpl.
  rewrite Hmissing, <- app_assoc. reflexivity.
Qed.

Lemma missing_workbook_fails_witness :
  fst (generate_personal_whisky_report (fun _ _ => None)
      Examples.ascii_lower "Ann" 5
         (mkWorld None [("notes.txt"%string, Other)] [])) = None.
Proof.
  rewrite (@missing_workbook_fails (fun _ _ => None)
             Examples.ascii_lower "Ann" 5
             (mkWorld None [("notes.txt"%string, Other)] []) eq_refl).
  reflexivity.
Defined.

(** *** The files a report touches *)

Lemma entries_write_other (f g : string) (c : Content) (w : World) :
  g <> f -> entries g (write_file f c w) = entries g w.
Proof.
  intros Hne. unfold entries, write_file, remove_file. simpl.
  apply String.eqb_neq in Hne. rewrite String.eqb_sym, Hne.
  rewrite filter_filter. apply filter_ext. intros [n x]. simpl.
  destruct (String.eqb n g) eqn:E; [|apply andb_false_r].
  apply String.eqb_eq in E. subst n. rewrite Hne. reflexivity.
Qed.

Lemma entries_remove_other (f g : string) (w : World) :
  g <> f -> entries g (remove_file f w) = entries g w.
Proof.
  intros Hne. unfold entries, remove_file. simpl.
  apply String.eqb_neq in Hne.
  rewrite filter_filter. apply filter_ext. intros [n x]. simpl.
  destruct (String.eqb n g) eqn:E; [|apply andb_false_r].
  apply String.eqb_eq in E. subst n. rewrite Hne. reflexivity.
Qed.

Lemma entries_write_same (f : string) (c : Content) (w : World) :
  entries f (write_file f c w) = [(f, c)].
Proof.
  unfold entries, write_file, remove_file. simpl.
  rewrite String.eqb_refl. f_equal. rewrite filter_filter.
  induction (files w) as [|[n x] l IH]; simpl; [reflexivity|].
  destruct (String.eqb n f); simpl; exact IH.
Qed.

Lemma remove_charts_other (l : list string) (g : string) (w : World) :
  ~ In g l ->
  entries g (snd (remove_charts l w)) = entries g w /\
  stdout (snd (remove_charts l w)) = stdout w.
Proof.
  revert w. induction l as [|f l IH]; intros w Hg; simpl.
  - split; reflexivity.
  - unfold mbind. assert (Hf : g <> f) by (intros C; apply Hg; left; auto).
    assert (Hl : ~ In g l) by (intros C; apply Hg; right; exact C).
    destruct (exists_file f w).
    + destruct (IH (remove_file f w) Hl) as [E1 E2].
      pose proof (remove_charts_removes l (remove_file f w)) as [Hok _].
      destruct (remove_charts l (remove_file f w)) as [[u|e] w1];
        simpl in *; [|discriminate].
      rewrite E1, E2. split; [apply entries_remove_other, Hf | reflexivity].
    + destruct (IH w Hl) as [E1 E2].
      pose proof (remove_charts_removes l w) as [Hok _].
      destruct (remove_charts l w) as [[u|e] w1]; simpl in *; [|discriminate].
      split; assumption.
Qed.

Lemma remove_charts_stdout (l : list string) (w : World) :
  stdout (snd (remove_charts l w)) = stdout w.
Proof.
  revert w. induction l as [|f l IH]; intros w; simpl; [reflexivity|].
  unfold mbind. destruct (exists_file f w).
  - pose proof (remove_charts_removes l (remove_file f w)) as [Hok _].
    specialize (IH (remove_file f w)).
    destruct (remove_charts l (remove_file f w)) as [[u|e] w1];
      simpl in *; [exact IH | discriminate].
  - pose proof (remove_charts_removes l w) as [Hok _].
    specialize (IH w).
    destruct (remove_charts l w) as [[u|e] w1];
      simpl in *; [exact IH | discriminate].
Qed.

Lemma output_is_no_chart (lower : string -> string)
    (attendee_name : string) :
  not_a_chart (output_filename lower attendee_name).
Proof. repeat split; discriminate. Qed.

Lemma not_a_chart_charts (g : string) : not_a_chart g -> ~ In g charts.
Proof.
  intros (Ht & Hd & Hr) [C|[C|[C|[]]]]; subst g; congruence.
Qed.

Lemma entries_with_charts (g : string) (w : World) :
  not_a_chart g -> entries g (with_charts w) = entries g w.
Proof.
  intros (Ht & Hd & Hr). unfold with_charts.
  rewrite !entries_write_other; auto.
Qed.

(** X14. When a report is produced, the working directory holds the report
    under the returned name (replacing any older file of that name), holds
    no file under any of the three chart names (a file that had such a name
    before is gone too), and every other file is as it was; nothing is
    printed. *)
Theorem files_after_success (corr : list Q -> list Q -> option Q)
    (lower : string -> string)
    (attendee_name : string) (min_distillery_count : Z) (w w' : World)
    (filename : string)
    (Hdone : generate_personal_whisky_report corr lower attendee_name
               min_distillery_count w = (Some filename, w')) :
  (exists document, entries filename w' = [(filename, Pdf document)]) /\
  (forall c, In c charts -> exists_file c w' = false) /\
  (forall g, not_a_chart g -> g <> filename -> entries g w' = entries g w) /\
  stdout w' = stdout w.
Proof.
  rewrite generate_cases in Hdone.
  destruct (load_whisky_data default_options (master_file w)) as [data|];
    [|discriminate].
  destruct (filter (fun r => String.eqb (Attendee r) attendee_name) data)
    as [|r focus]; [discriminate|].
  destruct (calculate_attendee_correlations corr data attendee_name 50)
    as [cdf|e]; [|discriminate].
  destruct (find_largest_score_differences data attendee_name)
    as [ddf|e]; [|discriminate].
  apply pair_equal_spec in Hdone. destruct Hdone as [Hf Hw].
  injection Hf as <-. subst w'.
  set (doc := document_of attendee_name min_distillery_count (r :: focus)
                cdf ddf).
  set (w1 := write_file (output_filename lower attendee_name) (Pdf doc)
               (with_charts w)).
  pose proof (output_is_no_chart lower attendee_name) as Hout.
  split; [|split; [|split]].
  - exists doc.
    destruct (@remove_charts_other charts _ w1 (not_a_chart_charts Hout))
      as [-> _].
    apply entries_write_same.
  - apply (remove_charts_removes charts w1).
  - intros g Hg Hne.
    destruct (@remove_charts_other charts _ w1 (not_a_chart_charts Hg))
      as [-> _].
    unfold w1. rewrite entries_write_other by exact Hne.
    apply entries_with_charts, Hg.
  - rewrite remove_charts_stdout. reflexivity.
Qed.

(** X15. When no report is produced, every file that is not one of the three
    charts is as it was (a report left by an earlier run included), and
    the console has gained the error message of the report function as its
    last line. *)
Theorem files_after_failure (corr : list Q -> list Q -> option Q)
    (lower : string -> string)
    (attendee_name : string) (min_distillery_count : Z) (w w' : World)
    (Hfailed : generate_personal_whisky_report corr lower attendee_name
                 min_distillery_count w = (None, w')) :
  (forall g, not_a_chart g -> entries g w' = entries g w) /\
  exists before message,
    stdout w' = stdout w ++ before
                ++ [("Error generating report: " ++ message)%string].
Proof.
  rewrite generate_cases in Hfailed.
  destruct (load_whisky_data default_options (master_file w)) as [data|].
  2:{ injection Hfailed as <-. split; [reflexivity|].
      exists ["Error: File 'Master Data File.xlsx' not found."%string],
             "Failed to load whisky data"%string.
      simpl. rewrite <- app_assoc. reflexivity. }
  destruct (filter (fun r => String.eqb (Attendee r) attendee_name) data)
    as [|r focus].
  { injection Hfailed as <-. split; [reflexivity|].
    exists [], ("No data found for attendee: " ++ attendee_name)%string.
    reflexivity. }
  destruct (calculate_attendee_correlations corr data attendee_name 50)
    as [cdf|e].
  2:{ injection Hfailed as <-.
      split; [intros g Hg; apply (entries_with_charts w Hg)|].
      exists [], (str_exn e). reflexivity. }
  destruct (find_largest_score_differences data attendee_name)
    as [ddf|e]; [discriminate|].
  injection Hfailed as <-.
  split; [intros g Hg; apply (entries_with_charts w Hg)|].
  exists [], (str_exn e). reflexivity.
Qed.

Lemma files_after_success_witness :
  exists w',
    generate_personal_whisky_report (fun _ _ => None)
      Examples.ascii_lower "Ann" 5
      Examples.busy_world = (Some "whisky_report_ann.pdf"%string, w') /\
    exists_file trend_chart w' = false /\
    stdout w' = [].
Proof.
  assert (E : fst (generate_personal_whisky_report (fun _ _ => None)
      Examples.ascii_lower "Ann" 5
                     Examples.busy_world)
              = Some "whisky_report_ann.pdf"%string)
    by (vm_compute; reflexivity).
  destruct (generate_personal_whisky_report (fun _ _ => None)
      Examples.ascii_lower "Ann" 5
              Examples.busy_world) as [o w'] eqn:G.
  simpl in E. subst o. exists w'. split; [reflexivity|].
  destruct (@files_after_success _ _ _ _ _ _ _ G) as (_ & Hcharts & _ & Hout).
  split; [|exact Hout].
  apply Hcharts. right. right. left. reflexivity.
Defined.

Lemma files_after_failure_witness :
  exists w',
    generate_personal_whisky_report (fun _ _ => None)
      Examples.ascii_lower "Ann" 5
      (mkWorld (Some Examples.club) [("notes.txt"%string, Other)] [])
    = (None, w') /\
    entries "notes.txt" w' = [("notes.txt"%string, Other)].
Proof.
  eexists. split; [vm_compute; reflexivity|].
  refine (proj1 (@files_after_failure (fun _ _ => None)
                   Examples.ascii_lower "Ann" 5
                   (mkWorld (Some Examples.club)
                            [("notes.txt"%string, Other)] []) _ _)
                "notes.txt"%string _).
  - vm_compute. reflexivity.
  - repeat split; discriminate.
Defined.

(** *** Top and bottom tables *)


Lemma firstn_In (A : Type) (n : nat) (l : list A) (x : A) :
  In x (firstn n l) -> In x l.
Proof.
  intros H. rewrite <- (firstn_skipn n l). apply in_or_app. left. exact H.
Qed.

Lemma skipn_In (A : Type) (n : nat) (l : list A) (x : A) :
  In x (skipn n l) -> In x l.
Proof.
  intros H. rewrite <- (firstn_skipn n l). apply in_or_app. right. exact H.
Qed.


Section Best.
Variable A : Type.
Variable leb : A -> A -> bool.
Hypothesis leb_total : forall a b, leb a b = true \/ leb b a = true.
Hypothesis leb_trans :
  forall a b c, leb a b = true -> leb b c = true -> leb a c = true.


End Best.











(** *** Groups *)

Lemma groups_In (key : Row -> option string) (rows : list Row) (g : string) :
  In g (groups key rows) <-> exists r, In r rows /\ key r = Some g.
Proof.
  unfold groups. split.
  - intros H. apply (proj1 (sort_In _ _ _)) in H.
    apply (proj1 (unique_In String.eqb String.eqb_eq _ _)) in H.
    apply in_flat_map in H. destruct H as [r [Hr H]].
    exists r. split; [exact Hr|].
    destruct (key r) as [x|]; simpl in H; [|contradiction].
    destruct H as [<-|[]]. reflexivity.
  - intros [r [Hr E]]. apply (proj2 (sort_In _ _ _)).
    apply (proj2 (unique_In String.eqb String.eqb_eq _ _)).
    apply in_flat_map. exists r. split; [exact Hr|].
    rewrite E. left. reflexivity.
Qed.

Lemma groups_NoDup (key : Row -> option string) (rows : list Row) :
  NoDup (groups key rows).
Proof.
  unfold groups.
  apply (Permutation_NoDup (Permutation_sym (sort_perm String.leb _))).
  apply (unique_NoDup String.eqb String.eqb_eq).
Qed.

Lemma indicator_sum (k : string) (gs : list string) :
  NoDup gs -> In k gs ->
  list_sum (map (fun g => if String.eqb k g then 1 else 0)%nat gs) = 1%nat.
Proof.
  induction 1 as [|g gs Hnotin Hnd IH]; intros Hin; [destruct Hin|].
  simpl. destruct (String.eqb k g) eqn:E.
  - apply String.eqb_eq in E. subst g.
    assert (Hz : list_sum (map (fun g => if String.eqb k g then 1 else 0)%nat
                               gs) = 0%nat).
    { clear IH Hin Hnd. induction gs as [|x gs IH]; simpl; [reflexivity|].
      destruct (String.eqb k x) eqn:Ex.
      - apply String.eqb_eq in Ex. subst x. exfalso. apply Hnotin. left.
        reflexivity.
      - apply IH. intros C. apply Hnotin. right. exact C. }
    rewrite Hz. reflexivity.
  - apply String.eqb_neq in E. destruct Hin as [->|Hin]; [congruence|].
    apply IH, Hin.
Qed.

Lemma list_sum_map_add (A : Type) (f h : A -> nat) (l : list A) :
  list_sum (map (fun a => f a + h a)%nat l)
  = (list_sum (map f l) + list_sum (map h l))%nat.
Proof. induction l as [|a l IH]; simpl; [reflexivity | rewrite IH; lia]. Qed.

Lemma list_sum_zero (A : Type) (l : list A) :
  list_sum (map (fun _ => 0%nat) l) = 0%nat.
Proof. induction l as [|a l IH]; simpl; [reflexivity | exact IH]. Qed.

Lemma members_sum (key : Row -> option string) (rows : list Row)
    (gs : list string) :
  NoDup gs ->
  (forall r g, In r rows -> key r = Some g -> In g gs) ->
  list_sum (map (fun g => List.length
                   (filter (fun r => opt_string_eqb (key r) g) rows)) gs)
  = List.length (filter (fun r => negb (isna (key r))) rows).
Proof.
  intros Hnd. induction rows as [|r rows IH]; intros Hcover.
  - simpl. apply list_sum_zero.
  - assert (IH' := IH (fun r0 g Hr0 => Hcover r0 g (or_intror Hr0))).
    rewrite (map_ext _
      (fun g => (if opt_string_eqb (key r) g then 1 else 0)
                + List.length
                    (filter (fun r0 => opt_string_eqb (key r0) g) rows))%nat).
    2:{ intros g. simpl. destruct (opt_string_eqb (key r) g); reflexivity. }
    rewrite list_sum_map_add, IH'. simpl filter.
    destruct (key r) as [k|] eqn:Ek; simpl.
    + rewrite (@indicator_sum k gs Hnd (Hcover r k (or_introl eq_refl) Ek)).
      reflexivity.
    + rewrite list_sum_zero. reflexivity.
Qed.

Lemma Zsum_of_nat (A : Type) (f : A -> nat) (l : list A) :
  fold_right Z.add 0%Z (map (fun a => Z.of_nat (f a)) l)
  = Z.of_nat (list_sum (map f l)).
Proof.
  induction l as [|a l IH]; simpl; [reflexivity|].
  rewrite IH. lia.
Qed.

(** X19. Grouping by distillery or by region: every value of the key that
    occurs in the person's rows has exactly one group and no other group
    exists; every group has at least one row; and the counts of the groups
    add up to the number of rows that have a value for the key, so a row
    without one is counted in no group and every other row in exactly
    one. *)
Theorem groups_partition_rows (key : Row -> option string)
    (rows : list Row) :
  NoDup (map group_name (aggregate key rows)) /\
  (forall g, In g (map group_name (aggregate key rows)) <->
             exists r, In r rows /\ key r = Some g) /\
  Forall (fun a => (1 <= whisky_count a)%Z) (aggregate key rows) /\
  fold_right Z.add 0%Z (map whisky_count (aggregate key rows))
  = Z.of_nat (List.length (filter (fun r => negb (isna (key r))) rows)).
Proof.
  assert (Hnames : map group_name (aggregate key rows) = groups key rows).
  { unfold aggregate. rewrite map_map. simpl. apply map_id. }
  split; [rewrite Hnames; apply groups_NoDup|].
  split; [intros g; rewrite Hnames; apply groups_In|].
  split.
  - unfold aggregate. apply Forall_map, Forall_forall. intros g Hg. simpl.
    apply groups_In in Hg. destruct Hg as [r [Hr E]].
    assert (Hin : In r (filter (fun r0 => opt_string_eqb (key r0) g) rows)).
    { apply filter_In. split; [exact Hr|]. rewrite E. simpl.
      apply String.eqb_refl. }
    destruct (filter (fun r0 => opt_string_eqb (key r0) g) rows);
      [destruct Hin | simpl; lia].
  - unfold aggregate. rewrite map_map. simpl.
    rewrite (Zsum_of_nat
               (fun g => List.length
                  (filter (fun r => opt_string_eqb (key r) g) rows))).
    f_equal. apply members_sum; [apply groups_NoDup|].
    intros r g Hr E. apply groups_In. exists r. split; assumption.
Qed.

(** *** Summary statistics *)

Lemma unique_length (A : Type) (eqb : A -> A -> bool) (l : list A) :
  (List.length (unique eqb l) <= List.length l)%nat.
Proof.
  induction l as [|x l IH]; simpl; [lia|].
  pose proof (filter_length_le (fun y => negb (eqb x y)) (unique eqb l)).
  lia.
Qed.

Lemma Qsum_le (T : Q) (xs : list Q) :
  Forall (fun x => (x <= T)%Q) xs ->
  (Qsum xs <= T * inject_Z (Z.of_nat (List.length xs)))%Q.
Proof.
  induction 1 as [|x xs Hx _ IH].
  - simpl. rewrite Qmult_0_r. apply Qle_refl.
  - change (List.length (x :: xs)) with (S (List.length xs)).
    rewrite Nat2Z.inj_succ. unfold Z.succ. rewrite inject_Z_plus.
    rewrite Qmult_plus_distr_r. simpl Qsum.
    rewrite Qplus_comm. apply Qplus_le_compat.
    + exact IH.
    + rewrite Qmult_1_r. exact Hx.
Qed.

Lemma mean_le (T : Q) (xs : list Q) :
  xs <> [] -> Forall (fun x => (x <= T)%Q) xs -> (mean xs <= T)%Q.
Proof.
  intros Hne Hall. unfold mean.
  apply Qle_shift_div_r.
  - destruct xs as [|x xs]; [congruence|].
    change 0%Q with (inject_Z 0). rewrite <- Zlt_Qlt.
    simpl List.length. lia.
  - apply Qsum_le, Hall.
Qed.

Lemma mean_between (lo hi : Q) (xs : list Q) :
  xs <> [] -> Forall (fun x => (lo <= x <= hi)%Q) xs ->
  (lo <= mean xs <= hi)%Q.
Proof.
  intros Hne Hall. split.
  - apply mean_ge; [exact Hne|].
    revert Hall. apply Forall_impl. intros x Hx. apply Hx.
  - apply mean_le; [exact Hne|].
    revert Hall. apply Forall_impl. intros x Hx. apply Hx.
Qed.

(** X20. The summary of a person with at least one row: the number of whiskies
    scored is the number of rows, the number of meetings attended is at
    least one and at most the number of whiskies scored, and the average
    score lies within any bounds that hold for each score. *)
Theorem summary_consistent (current_focus : list Row) (lo hi : Q)
    (Hrows : current_focus <> [])
    (Hbounds : forall r, In r current_focus ->
                         (lo <= Whisky_Score r <= hi)%Q) :
  let stats := attendee_stats current_focus in
  whiskies_scored stats = Z.of_nat (List.length current_focus) /\
  (1 <= meetings_attended stats <= whiskies_scored stats)%Z /\
  (lo <= stats_avg_score stats <= hi)%Q.
Proof.
  simpl. split; [reflexivity|]. split.
  - pose proof (unique_length Z.eqb (map Meeting_Number current_focus)) as H.
    rewrite length_map in H.
    destruct current_focus as [|r l]; [congruence|]. simpl in *. lia.
  - apply mean_between.
    + destruct current_focus; [congruence | discriminate].
    + apply Forall_map, Forall_forall. exact Hbounds.
Qed.

Lemma summary_consistent_witness :
  (1 <= meetings_attended (attendee_stats Examples.ann_focus)
     <= whiskies_scored (attendee_stats Examples.ann_focus))%Z.
Proof.
  refine (proj1 (proj2 (@summary_consistent Examples.ann_focus (6 # 1) (9 # 1)
                          _ _))).
  - discriminate.
  - intros r Hr. simpl in Hr.
    repeat (destruct Hr as [<-|Hr]; [split; discriminate|]).
    destruct Hr.
Defined.

(** *** The trend series *)

Lemma tail_In (A : Type) (n : nat) (l : list A) (x : A) :
  In x (tail n l) -> In x l.
Proof. unfold tail. apply skipn_In. Qed.

Lemma tail_nonempty (A : Type) (n : nat) (l : list A) :
  (1 <= n)%nat -> l <> [] -> tail n l <> [].
Proof.
  intros Hn Hl C. destruct l as [|x l]; [congruence|].
  apply (f_equal (@List.length A)) in C.
  unfold tail in C. rewrite length_skipn in C.
  change (List.length (x :: l)) with (S (List.length l)) in C.
  change (List.length (@nil A)) with 0%nat in C. lia.
Qed.

Lemma window_at_values (window : nat) (xs : list Q) (i : nat) :
  (1 <= window)%nat -> (i < List.length xs)%nat ->
  window_at window xs i <> [] /\
  forall x, In x (window_at window xs i) -> In x xs.
Proof.
  intros Hw Hi. unfold window_at. split.
  - apply tail_nonempty; [exact Hw|].
    destruct xs as [|x xs]; [simpl in Hi; lia | discriminate].
  - intros x Hx. apply tail_In, firstn_In in Hx. exact Hx.
Qed.

Lemma window_at_start (window : nat) (xs : list Q) (i : nat) :
  (i < window)%nat -> window_at window xs i = firstn (S i) xs.
Proof.
  intros Hi. unfold window_at, tail.
  replace (List.length (firstn (S i) xs) - window)%nat with 0%nat;
    [reflexivity|].
  rewrite length_firstn. lia.
Qed.

Lemma nth_map_seq (A : Type) (f : nat -> A) (n i : nat) (d : A) :
  (i < n)%nat -> nth i (map f (seq 0 n)) d = f i.
Proof.
  intros Hi. rewrite (nth_indep _ d (f 0%nat))
    by (rewrite length_map, length_seq; exact Hi).
  rewrite map_nth, seq_nth by exact Hi. reflexivity.
Qed.

Lemma Zid_total (a b : Row) :
  Z.leb (Whisky_ID a) (Whisky_ID b) = true \/
  Z.leb (Whisky_ID b) (Whisky_ID a) = true.
Proof. rewrite !Z.leb_le. lia. Qed.

(** X21. The moving average of the trend chart.  The person's rows are taken in
    ascending order of whisky identifier; the series has one value per row,
    none of them missing; each of the first ten values is the mean of all
    scores up to its position; and every value lies within any bounds that
    hold for each score. *)
Theorem trend_defined_and_bounded (current_focus : list Row) (lo hi : Q)
    (Hbounds : forall r, In r current_focus ->
                         (lo <= Whisky_Score r <= hi)%Q) :
  Permutation (scores_over_time current_focus) current_focus /\
  StronglySorted (fun a b => (Whisky_ID a <= Whisky_ID b)%Z)
                 (scores_over_time current_focus) /\
  List.length (moving_avg current_focus) = List.length current_focus /\
  Forall (fun v => exists q, v = Some q /\ (lo <= q <= hi)%Q)
         (moving_avg current_focus) /\
  forall i, (i < List.length current_focus)%nat -> (i < 10)%nat ->
    nth i (moving_avg current_focus) None
    = Some (mean (firstn (S i)
                    (map Whisky_Score (scores_over_time current_focus)))).
Proof.
  assert (Hperm : Permutation (scores_over_time current_focus) current_focus)
    by apply sort_perm.
  assert (Hlen : List.length (map Whisky_Score
                                (scores_over_time current_focus))
                 = List.length current_focus).
  { rewrite length_map. apply Permutation_length, Hperm. }
  split; [exact Hperm|]. split; [|split; [|split]].
  - unfold scores_over_time.
    pose proof (sort_sorted (fun a b => Z.leb (Whisky_ID a) (Whisky_ID b))
                  (fun a b => Zid_total a b)
                  (fun a b c H1 H2 =>
                     proj2 (Z.leb_le _ _)
                       (Z.le_trans _ _ _ (proj1 (Z.leb_le _ _) H1)
                                         (proj1 (Z.leb_le _ _) H2)))
                  current_focus) as H.
    induction H as [|a t Hs IH Hall]; constructor; [exact IH|].
    revert Hall. apply Forall_impl. intros b. apply Z.leb_le.
  - unfold moving_avg, rolling_mean. rewrite length_map, length_seq.
    exact Hlen.
  - unfold moving_avg, rolling_mean. apply Forall_map, Forall_forall.
    intros i Hi. apply in_seq in Hi. simpl in Hi. destruct Hi as [_ Hi].
    destruct (@window_at_values 10 (map Whisky_Score
                                      (scores_over_time current_focus)) i)
      as [Hne Hin]; [lia | exact Hi |].
    cbv zeta.
    destruct (window_at 10 (map Whisky_Score
                              (scores_over_time current_focus)) i)
      as [|x l] eqn:E; [congruence|].
    simpl Nat.leb. eexists. split; [reflexivity|].
    apply mean_between; [discriminate|].
    apply Forall_forall. intros y Hy. apply Hin in Hy.
    apply in_map_iff in Hy. destruct Hy as [r [<- Hr]].
    apply Hbounds. apply (Permutation_in _ Hperm), Hr.
  - intros i Hi H10. unfold moving_avg, rolling_mean.
    rewrite nth_map_seq by (rewrite Hlen; exact Hi). cbv zeta.
    rewrite window_at_start by exact H10.
    assert (Hl : List.length (firstn (S i)
                    (map Whisky_Score (scores_over_time current_focus)))
                 = S i) by (rewrite length_firstn, Hlen; lia).
    rewrite Hl. reflexivity.
Qed.

Lemma trend_defined_and_bounded_witness :
  List.length (moving_avg Examples.ann_focus) = 11%nat.
Proof.
  refine (proj1 (proj2 (proj2 (@trend_defined_and_bounded Examples.ann_focus
                                 (6 # 1) (9 # 1) _)))).
  intros r Hr. simpl in Hr.
  repeat (destruct Hr as [<-|Hr]; [split; discriminate|]).
  destruct Hr.
Defined.

(** The example of the specification: scores 7, 8, 9 give the averages
    7, 7.5, 8. *)
Example moving_average_7_8_9 :
  Forall2 (fun v q => exists x, v = Some x /\ (x == q)%Q)
          (rolling_mean 10 1 [7 # 1; 8 # 1; 9 # 1])
          [7 # 1; 15 # 2; 8 # 1].
Proof.
  repeat constructor; eexists; (split; [reflexivity|]); reflexivity.
Qed.

(** *** The name of the report file *)

Lemma replace_space_idempotent (s : string) :
  replace_space (replace_space s) = replace_space s.
Proof.
  induction s as [|c s IH]; simpl; [reflexivity|].
  destruct (Ascii.eqb c " "%char) eqn:E; simpl.
  - rewrite IH. reflexivity.
  - rewrite E, IH. reflexivity.
Qed.

(** X22. Whatever [str.lower] does, the name of the report file is none of
    the three chart names, so the cleanup of the charts cannot remove the
    report; and the name depends on the person's name only through the
    name with its blanks written as underscores, so a name and that form
    of it (say ["Ann Lee"] and ["Ann_Lee"]) get the same report file. *)
Theorem report_file_name (lower : string -> string)
    (attendee_name : string) :
  not_a_chart (output_filename lower attendee_name) /\
  replace_space (replace_space attendee_name) = replace_space attendee_name /\
  output_filename lower (replace_space attendee_name)
  = output_filename lower attendee_name.
Proof.
  split; [apply output_is_no_chart|].
  split; [apply replace_space_idempotent|].
  unfold output_filename. rewrite replace_space_idempotent. reflexivity.
Qed.

(** *** What the report shows *)

Lemma head_all (A : Type) (n : nat) (l : list A) :
  (List.length l <= n)%nat -> head n l = l.
Proof. intros H. unfold head. apply firstn_all2, H. Qed.

Lemma tail_all (A : Type) (n : nat) (l : list A) :
  (List.length l <= n)%nat -> tail n l = l.
Proof.
  intros H. unfold tail.
  replace (List.length l - n)%nat with 0%nat by lia. reflexivity.
Qed.

(** X16. The document of a produced report.  The history lists every row of
    the person exactly once (age rounded, ABV as a percentage), highest
    score first; the table of similar scorers holds the first three rows of
    the correlation frame and the table of different scorers its last
    three, so with three or fewer correlated attendees both tables show
    the same rows; the differences table holds the first five rows of the
    differences frame. *)
Theorem report_contents (corr : list Q -> list Q -> option Q)
    (lower : string -> string)
    (attendee_name : string) (min_distillery_count : Z) (w w' : World)
    (filename : string)
    (Hdone : generate_personal_whisky_report corr lower attendee_name
               min_distillery_count w = (Some filename, w')) :
  exists data correlations_df differences_df document,
    load_whisky_data default_options (master_file w) = Some data /\
    calculate_attendee_correlations corr data attendee_name 50
      = Ok correlations_df /\
    find_largest_score_differences data attendee_name = Ok differences_df /\
    entries filename w' = [(filename, Pdf document)] /\
    Permutation (doc_history document)
      (map prepare_row
           (filter (fun r => String.eqb (Attendee r) attendee_name) data)) /\
    StronglySorted (fun a b => (Whisky_Score b <= Whisky_Score a)%Q)
                   (doc_history document) /\
    doc_similar document = firstn 3 correlations_df /\
    doc_different document
      = skipn (List.length correlations_df - 3) correlations_df /\
    ((List.length correlations_df <= 3)%nat ->
     doc_similar document = correlations_df /\
     doc_different document = correlations_df) /\
    doc_differences document = firstn 5 differences_df.
Proof.
  rewrite generate_cases in Hdone.
  destruct (load_whisky_data default_options (master_file w)) as [data|];
    [|discriminate].
  destruct (filter (fun r => String.eqb (Attendee r) attendee_name) data)
    as [|r focus] eqn:Ef; [discriminate|].
  destruct (calculate_attendee_correlations corr data attendee_name 50)
    as [cdf|e] eqn:Ec; [|discriminate].
  destruct (find_largest_score_differences data attendee_name)
    as [ddf|e] eqn:Ed; [|discriminate].
  apply pair_equal_spec in Hdone. destruct Hdone as [Hf Hw].
  injection Hf as <-. subst w'.
  exists data, cdf, ddf,
    (document_of attendee_name min_distillery_count (r :: focus) cdf ddf).
  split; [reflexivity|]. split; [exact Ec|]. split; [exact Ed|].
  split.
  { destruct (@remove_charts_other charts _
                (write_file (output_filename lower attendee_name)
                   (Pdf (document_of attendee_name min_distillery_count
                           (r :: focus) cdf ddf)) (with_charts w))
                (not_a_chart_charts (output_is_no_chart lower attendee_name)))
      as [-> _].
    apply entries_write_same. }
  unfold document_of.
  cbn [doc_history doc_similar doc_different doc_differences]. rewrite Ef.
  split; [apply sort_perm|].
  split; [apply sort_values_desc_sorted|].
  split; [reflexivity|]. split; [reflexivity|]. split; [|reflexivity].
  intros Hle. split; [apply head_all, Hle | apply tail_all, Hle].
Qed.

Lemma report_contents_witness :
  exists document,
    In ("whisky_report_ann.pdf"%string, Pdf document)
       (files (snd (generate_personal_whisky_report (fun _ _ => None)
      Examples.ascii_lower "Ann" 5
                      Examples.busy_world))) /\
    doc_similar document = doc_different document.
Proof.
  assert (E : fst (generate_personal_whisky_report (fun _ _ => None)
      Examples.ascii_lower "Ann" 5
                     Examples.busy_world)
              = Some "whisky_report_ann.pdf"%string)
    by (vm_compute; reflexivity).
  destruct (generate_personal_whisky_report (fun _ _ => None)
      Examples.ascii_lower "Ann" 5
              Examples.busy_world) as [o w'] eqn:G.
  simpl in E. subst o.
  destruct (@report_contents _ _ _ _ _ _ _ G)
    as (data & cdf & ddf & document & Hload & Hc & _ & He & _ & _ & _ & _
        & Hsame & _).
  exists document. split.
  - simpl snd.
    assert (Hin : In ("whisky_report_ann.pdf"%string, Pdf document)
                     (entries "whisky_report_ann.pdf" w'))
      by (rewrite He; left; reflexivity).
    unfold entries in Hin. apply filter_In in Hin. apply Hin.
  - assert (Hlen : (List.length cdf <= 3)%nat).
    { injection Hload as <-. vm_compute in Hc. injection Hc as <-.
      simpl. lia. }
    destruct (Hsame Hlen) as [-> ->]. reflexivity.
Defined.



(** *** Common whiskies without repeated scores *)

Lemma common_whiskies_ids (t o : list (Z * Q)) :
  NoDup (map fst o) ->
  map (fun c => fst (fst c)) (common_whiskies t o)
  = filter (fun id => isin Z.eqb id (map fst o)) (map fst t).
Proof.
  intros Hnd. induction t as [|x t IH]; simpl; [reflexivity|].
  rewrite map_app, IH, map_map. simpl. f_equal.
  pose proof (unique_key_filter (@fst Z Q) (fst x) o Hnd) as Hlen.
  destruct (filter (fun o0 => Z.eqb (fst o0) (fst x)) o) as [|y [|z l]] eqn:E;
    simpl in *; [| |lia].
  - destruct (isin Z.eqb (fst x) (map fst o)) eqn:Ei; [|reflexivity].
    apply (isin_In Z.eqb Z.eqb_eq) in Ei. apply in_map_iff in Ei.
    destruct Ei as [y [Ey Hy]].
    assert (Hin : In y (filter (fun o0 => Z.eqb (fst o0) (fst x)) o))
      by (apply filter_In; split; [exact Hy | apply Z.eqb_eq, Ey]).
    rewrite E in Hin. destruct Hin.
  - assert (Hy : In y (filter (fun o0 => Z.eqb (fst o0) (fst x)) o))
      by (rewrite E; left; reflexivity).
    apply filter_In in Hy. destruct Hy as [Hy Hid].
    assert (Ei : isin Z.eqb (fst x) (map fst o) = true).
    { apply (isin_In Z.eqb Z.eqb_eq). apply Z.eqb_eq in Hid.
      rewrite <- Hid. apply in_map, Hy. }
    rewrite Ei. reflexivity.
Qed.

(** X9. When the target and the other attendee each have a single score row
    per whisky, the join holds one row for each whisky both scored and no
    other: the number of common whiskies is the number of distinct
    whiskies they share, at most the number of rows of either. *)
Theorem common_whiskies_distinct (data : list Row) (a b : string)
    (Ha : NoDup (map fst (scores_of_attendee data a)))
    (Hb : NoDup (map fst (scores_of_attendee data b))) :
  let ids := map (fun c => fst (fst c)) (common data a b) in
  NoDup ids /\
  (forall id, In id ids <->
              In id (map fst (scores_of_attendee data a)) /\
              In id (map fst (scores_of_attendee data b))) /\
  (List.length (common data a b)
   <= List.length (scores_of_attendee data a))%nat /\
  (List.length (common data a b)
   <= List.length (scores_of_attendee data b))%nat.
Proof.
  intros ids.
  assert (E : ids = filter (fun id => isin Z.eqb id
                              (map fst (scores_of_attendee data b)))
                           (map fst (scores_of_attendee data a)))
    by (apply common_whiskies_ids, Hb).
  assert (Hlen : (List.length (common data a b)
                  <= List.length (scores_of_attendee data a))%nat).
  { rewrite <- (length_map (fun c => fst (fst c)) (common data a b)).
    fold ids. rewrite E.
    rewrite <- (length_map fst (scores_of_attendee data a)).
    apply filter_length_le. }
  split; [rewrite E; apply NoDup_filter, Ha|].
  split; [|split; [exact Hlen|]].
  - intros id. rewrite E, filter_In.
    rewrite (isin_In Z.eqb Z.eqb_eq). tauto.
  - unfold common at 1. rewrite common_whiskies_sym. fold (common data b a).
    rewrite <- (length_map (fun c => fst (fst c)) (common data b a)).
    unfold common. rewrite (@common_whiskies_ids _ _ Ha).
    rewrite <- (length_map fst (scores_of_attendee data b)).
    apply filter_length_le.
Qed.

Lemma common_whiskies_distinct_witness :
  NoDup (map (fun c => fst (fst c)) (common Examples.club_data "Ann" "Bob")).
Proof.
  refine (proj1 (@common_whiskies_distinct Examples.club_data "Ann" "Bob"
                   _ _));
    simpl; repeat constructor; simpl; intuition discriminate.
Defined.
End ReportViews.
